(** * Microsoft machine-translation backends of Weblate
    (weblate/trans/machine/microsoft.py)

    A shallow embedding of the three provider classes of the module,
    [MicrosoftTranslation], [MicrosoftCognitiveTranslation] and
    [MicrosoftTerminologyService], and the properties of their language
    codec, token cache, request building and error handling.

    Python text is modelled by [string], one [ascii] per character, so
    the characters of the model are the code points below 256.  Instants
    are integers (microseconds, the resolution of [datetime]), dicts are
    [gmap]s, the set of supported languages is a [gset]. *)

From Stdlib Require Import ZArith Ascii String List Lia DecimalString.
From stdpp Require Import base decidable option list strings gmap.

Local Open Scope string_scope.
Local Open Scope Z_scope.

(** ** Python string operations *)

Module PyStr.

(** [c in s] for a one-character [c]. *)
Fixpoint contains (c : ascii) (s : string) : bool :=
  match s with
  | EmptyString => false
  | String a rest => if Ascii.eqb a c then true else contains c rest
  end.

(** [s.replace(a, b)] for one-character [a] and [b]. *)
Fixpoint replace (a b : ascii) (s : string) : string :=
  match s with
  | EmptyString => EmptyString
  | String x rest => String (if Ascii.eqb x a then b else x) (replace a b rest)
  end.

(** The lower-case mapping of one character: A-Z, and in the Latin-1
    block U+00C0-U+00DE without the multiplication sign U+00D7. *)
Definition lower_char (c : ascii) : ascii :=
  let n := nat_of_ascii c in
  if ((65 <=? n) && (n <=? 90))%nat then ascii_of_nat (n + 32)
  else if ((192 <=? n) && (n <=? 222) && negb (n =? 215))%nat
       then ascii_of_nat (n + 32)
       else c.

(** [s.lower()]. *)
Fixpoint lower (s : string) : string :=
  match s with
  | EmptyString => EmptyString
  | String x rest => String (lower_char x) (lower rest)
  end.

(** [s.split(sep)[0]]: what precedes the first [sep], all of [s] when
    there is none. *)
Fixpoint split_head (sep : ascii) (s : string) : string :=
  match s with
  | EmptyString => EmptyString
  | String x rest =>
      if Ascii.eqb x sep then EmptyString else String x (split_head sep rest)
  end.

(** [s[:n]]. *)
Fixpoint slice_to (n : nat) (s : string) : string :=
  match n, s with
  | O, _ => EmptyString
  | _, EmptyString => EmptyString
  | S k, String x rest => String x (slice_to k rest)
  end.

(** [sub in s] for a string [sub]. *)
Fixpoint contains_str (sub s : string) : bool :=
  if String.prefix sub s then true
  else match s with
       | EmptyString => false
       | String _ rest => contains_str sub rest
       end.

End PyStr.

(** ** Exceptions and results *)

(** An instance of a subclass of [Exception], which is what an
    [except Exception] clause catches: its class name
    ([exc.__class__.__name__], an identifier), its message, and whether
    the message is a byte string ([str]) rather than a text ([unicode]);
    the module runs on Python 2. *)
Record PyExc := PyException {
  exc_class : string;
  exc_str : string;
  exc_bytes : bool;
}.

(** An exception with a byte-string message, as the interpreter and the
    libraries raise them. *)
Definition Exc (cls msg : string) : PyExc := PyException cls msg true.

(** [MachineTranslationError(msg)] for a text [msg]. *)
Definition MachineTranslationError (msg : string) : PyExc :=
  PyException "MachineTranslationError" msg false.

Inductive result (A : Type) : Type :=
| Return (a : A)
| Raise (e : PyExc).
Arguments Return {A} a.
Arguments Raise {A} e.

(** ** Texts and byte strings on Python 2 *)

Module Py2.

Definition is_ascii_char (c : ascii) : bool := (nat_of_ascii c <? 128)%nat.

(** Whether every character is below 128. *)
Fixpoint is_ascii (s : string) : bool :=
  match s with
  | EmptyString => true
  | String c rest => is_ascii_char c && is_ascii rest
  end.

(** The number of characters from 128 on at the head of [s]. *)
Fixpoint bad_run (s : string) : nat :=
  match s with
  | EmptyString => O
  | String c rest => if is_ascii_char c then O else S (bad_run rest)
  end.

(** The first character from 128 on: its position, itself, and the
    length of the run of such characters it starts. *)
Fixpoint first_bad (s : string) (pos : nat) : option (nat * ascii * nat) :=
  match s with
  | EmptyString => None
  | String c rest =>
      if is_ascii_char c then first_bad rest (S pos)
      else Some (pos, c, S (bad_run rest))
  end.

(** ['%d' % n]. *)
Definition decimal (n : nat) : string := NilZero.string_of_uint (Nat.to_uint n).

Definition hex_digit (n : nat) : ascii :=
  match n with
  | 0 => "0" | 1 => "1" | 2 => "2" | 3 => "3" | 4 => "4" | 5 => "5" | 6 => "6"
  | 7 => "7" | 8 => "8" | 9 => "9" | 10 => "a" | 11 => "b" | 12 => "c"
  | 13 => "d" | 14 => "e" | _ => "f"
  end%nat%char.

(** ['%02x' % ord(c)]. *)
Definition hex2 (c : ascii) : string :=
  let n := nat_of_ascii c in
  String (hex_digit (n / 16)) (String (hex_digit (n mod 16)) EmptyString).

Definition NOT_IN_RANGE : string := ": ordinal not in range(128)".

(** [text.encode('ascii')], the implicit conversion of a text to a
    byte string. *)
Definition encode_ascii (text : string) : result string :=
  match first_bad text 0 with
  | None => Return text
  | Some (pos, c, run) =>
      Raise (Exc "UnicodeEncodeError"
               (if (run =? 1)%nat then
                  "'ascii' codec can't encode character u'\x" +:+ hex2 c +:+
                  "' in position " +:+ decimal pos +:+ NOT_IN_RANGE
                else
                  "'ascii' codec can't encode characters in position " +:+
                  decimal pos +:+ "-" +:+ decimal (pos + run - 1) +:+ NOT_IN_RANGE))
  end.

(** [bytes.decode('ascii')], the implicit conversion of a byte string
    to a text. *)
Definition decode_ascii (bytes : string) : result string :=
  match first_bad bytes 0 with
  | None => Return bytes
  | Some (pos, c, _) =>
      Raise (Exc "UnicodeDecodeError"
               ("'ascii' codec can't decode byte 0x" +:+ hex2 c +:+
                " in position " +:+ decimal pos +:+ NOT_IN_RANGE))
  end.

(** [str(exc)]: the message as a byte string. *)
Definition str (exc : PyExc) : result string :=
  if exc_bytes exc then Return (exc_str exc) else encode_ascii (exc_str exc).

(** [unicode(exc)]: the message as a text. *)
Definition unicode (exc : PyExc) : result string :=
  if exc_bytes exc then decode_ascii (exc_str exc) else Return (exc_str exc).

End Py2.

(** ** MicrosoftTranslation.convert_language, lines 104-115 *)

Module MicrosoftTranslationCodec.

Definition convert_language (language : string) : string :=
  let language := PyStr.lower (PyStr.replace "_" "-" language) in
  if String.eqb language "zh-tw" then "zh-CHT"
  else if String.eqb language "zh-cn" then "zh-CHS"
  else if String.eqb language "nb" then "no"
  else if String.eqb language "pt-br" then "pt"
  else language.

End MicrosoftTranslationCodec.

(** ** MicrosoftCognitiveTranslation.convert_language, lines 147-186 *)

Module MicrosoftCognitiveCodec.

Definition LANGUAGE_CONVERTER : gmap string string :=
  list_to_map
    [ ("zh-hant", "zh-CHT");
      ("zh-hans", "zh-CHS");
      ("zh-tw", "zh-CHT");
      ("zh-cn", "zh-CHS");
      ("tlh-qaak", "tlh-Qaak");
      ("nb", "no");
      ("bs-latn", "bs-Latn");
      ("sr-latn", "sr-Latn");
      ("sr-cyrl", "sr-Cyrl") ].

Definition convert_language (language : string) : string :=
  let language := PyStr.lower (PyStr.replace "_" "-" language) in
  match LANGUAGE_CONVERTER !! language with
  | Some code => code
  | None => PyStr.split_head "-" language
  end.

End MicrosoftCognitiveCodec.

(** ** Effects: a state and exception monad

    A method runs against a world (the fields of the instance and the
    record of what it did to its collaborators) and either returns or
    raises, leaving the world as it was when it stopped. *)

Definition M (W A : Type) : Type := W -> result A * W.

Definition ret {W A} (a : A) : M W A := fun w => (Return a, w).

Definition raise {W A} (e : PyExc) : M W A := fun w => (Raise e, w).

Definition bind {W A B} (m : M W A) (k : A -> M W B) : M W B :=
  fun w =>
    match m w with
    | (Return a, w') => k a w'
    | (Raise e, w') => (Raise e, w')
    end.

(** [try: body except Exception as exc: handler(exc)]. *)
Definition try_except {W A} (body : M W A) (handler : PyExc -> M W A) : M W A :=
  fun w =>
    match body w with
    | (Return a, w') => (Return a, w')
    | (Raise exc, w') => handler exc w'
    end.

(** A result as a computation that leaves the world alone. *)
Definition lift_result {W A} (r : result A) : M W A := fun w => (r, w).

Notation "x <- m ;; k" := (bind m (fun x => k))
  (at level 100, m at next level, right associativity).
Notation "m ;;; k" := (bind m (fun _ => k))
  (at level 100, right associativity).

(** The objects passed through to [download_translations].  [translate]
    reads one attribute of the unit,
    [unit.translation.subproject.project.source_language.code]. *)
Record Unit := { source_language_code : string }.
Record User := { username : string }.

(** ** MicrosoftTranslation: token cache and requests, lines 38-140 *)

Module MicrosoftTranslation.

Definition BASE_URL := "https://api.microsofttranslator.com/V2/Ajax.svc/".
Definition TRANSLATE_URL := BASE_URL +:+ "Translate".
Definition LIST_URL := BASE_URL +:+ "GetLanguagesForTranslate".
Definition OAUTH_URL := "https://datamarket.accesscontrol.windows.net/v2/OAuth2-13".

(** [timedelta(minutes=9)], in microseconds. *)
Definition TOKEN_EXPIRY : Z := 9 * 60 * 1000000.

Definition name := "Microsoft Translator".

(** A request as it reaches [urlopen]. *)
Record Request := {
  url : string;
  http_post : bool;
  raw : bool;
  headers : list (string * string);
  params : gmap string string;
}.

(** A value of a decoded object: [null] or a string. *)
Inductive JVal :=
| JNull
| JText (s : string).

(** What [json_req] hands back: the body as text (when [raw]) or the
    decoded JSON, here a string or an object (the authentication answer
    is [{access_token, error?, error_description?}]). *)
Inductive Json :=
| JStr (s : string)
| JObject (d : gmap string JVal).

(** An object whose values are all strings. *)
Definition JObj (d : gmap string string) : Json := JObject (JText <$> d).

(** [a + b] on values of an object and texts. *)
Definition add_values (a b : JVal) : result string :=
  match a, b with
  | JText x, JText y => Return (x +:+ y)
  | JText _, JNull =>
      Raise (Exc "TypeError" "coercing to Unicode: need string or buffer, NoneType found")
  | JNull, JText _ =>
      Raise (Exc "TypeError" "unsupported operand type(s) for +: 'NoneType' and 'unicode'")
  | JNull, JNull =>
      Raise (Exc "TypeError" "unsupported operand type(s) for +: 'NoneType' and 'NoneType'")
  end.

(** A value as Python has it: [None] for [null]. *)
Definition to_token (v : JVal) : option string :=
  match v with
  | JNull => None
  | JText s => Some s
  end.

(** The instance ([_access_token], [_token_expiry], both [None] after
    [__init__]) and its dealings with the clock and the network. *)
Record World := {
  _access_token : option string;
  _token_expiry : option Z;
  clock_reads : nat;
  sent : list Request;
}.

Definition unset : World :=
  {| _access_token := None; _token_expiry := None;
     clock_reads := O; sent := [] |}.

(** One candidate of [download_translations]:
    [(response, 100, self.name, text)]. *)
Definition Candidate : Type := Json * Z * string * string.

Section Instance.

(** [settings.MT_MICROSOFT_ID] and [settings.MT_MICROSOFT_SECRET];
    [__init__] refuses to build an instance without them. *)
Variable MT_MICROSOFT_ID MT_MICROSOFT_SECRET : string.

(** [timezone.now()]: the value of the k-th reading of the clock. *)
Variable timezone_now : nat -> Z.

(** The remote end: the outcome of a request, given the requests
    sent before it (latest first). *)
Variable urlopen : list Request -> Request -> result Json.

Definition now : M World Z :=
  fun w =>
    (Return (timezone_now (clock_reads w)),
     {| _access_token := _access_token w; _token_expiry := _token_expiry w;
        clock_reads := S (clock_reads w); sent := sent w |}).

Definition send (req : Request) : M World Json :=
  fun w =>
    (urlopen (sent w) req,
     {| _access_token := _access_token w; _token_expiry := _token_expiry w;
        clock_reads := clock_reads w; sent := req :: sent w |}).

Definition get_access_token : M World (option string) :=
  fun w => (Return (_access_token w), w).

Definition get_token_expiry : M World (option Z) :=
  fun w => (Return (_token_expiry w), w).

Definition set_access_token (v : option string) : M World unit :=
  fun w =>
    (Return tt,
     {| _access_token := v; _token_expiry := _token_expiry w;
        clock_reads := clock_reads w; sent := sent w |}).

Definition set_token_expiry (v : option Z) : M World unit :=
  fun w =>
    (Return tt,
     {| _access_token := _access_token w; _token_expiry := v;
        clock_reads := clock_reads w; sent := sent w |}).

(** Modelled from the spec: [json_req] is inherited from
    [MachineTranslation] (weblate.trans.machine.base), which lies
    outside this module.  The bearer client attaches the
    authorization header obtained from the token cache to every
    request except the authentication request itself ([skip_auth]),
    sends the encoded parameters and hands back the decoded answer.
    The [authenticate] hook is passed in, as the method is looked up
    on the instance. *)
Definition json_req_with (authenticate : M World (list (string * string)))
    (url : string) (http_post skip_auth raw : bool)
    (kwargs : gmap string string) : M World Json :=
  hdrs <- (if skip_auth then ret [] else authenticate) ;;
  send {| url := url; http_post := http_post; raw := raw;
          headers := hdrs; params := kwargs |}.

(** Lines 68-70.  Comparing [None] with an instant is a [TypeError]. *)
Definition is_token_expired : M World bool :=
  expiry <- get_token_expiry ;;
  t <- now ;;
  match expiry with
  | Some e => ret (e <=? t)
  | None => raise (Exc "TypeError" "can't compare datetime.datetime to NoneType")
  end.

(** The keyword arguments of the authentication request, lines 80-83. *)
Definition oauth_args : gmap string string :=
  <["client_id" := MT_MICROSOFT_ID]>
  (<["client_secret" := MT_MICROSOFT_SECRET]>
  (<["scope" := "https://api.microsofttranslator.com"]>
  (<["grant_type" := "client_credentials"]> ∅))).

(** Lines 72-95. *)
Definition access_token : M World (option string) :=
  token <- get_access_token ;;
  refresh <- (match token with
              | None => ret true
              | Some _ => is_token_expired
              end) ;;
  (if refresh : bool then
     data <- json_req_with (ret []) OAUTH_URL true true false oauth_args ;;
     match data with
     | JObject data =>
         if bool_decide (is_Some (data !! "error")) then
           message <- lift_result
                        (add_values
                           (default (JText "Unknown Error") (data !! "error"))
                           (default (JText "No Error Description")
                              (data !! "error_description"))) ;;
           raise (MachineTranslationError message)
         else
           match data !! "access_token" with
           | Some token =>
               set_access_token (to_token token) ;;;
               t <- now ;;
               set_token_expiry (Some (t + TOKEN_EXPIRY))
           | None => raise (Exc "KeyError" "u'access_token'")
           end
     | JStr data =>
         if PyStr.contains_str "error" data then
           raise (Exc "AttributeError" "'unicode' object has no attribute 'get'")
         else raise (Exc "TypeError" "string indices must be integers")
     end
   else ret tt) ;;;
  get_access_token.

(** ['Bearer {0}'.format(token)]. *)
Definition format_bearer (token : option string) : string :=
  "Bearer " +:+ default "None" token.

(** Lines 97-102: the headers the hook adds to the request. *)
Definition authenticate : M World (list (string * string)) :=
  token <- access_token ;;
  ret [("Authorization", format_bearer token)].

Definition json_req := json_req_with authenticate.

(** The keyword arguments of the translation request, lines 132-138. *)
Definition translate_args (source language text : string) : gmap string string :=
  <["text" := PyStr.slice_to 5000 text]>
  (<["from" := source]>
  (<["to" := language]>
  (<["contentType" := "text/plain"]>
  (<["category" := "general"]> ∅)))).

(** Lines 130-140. *)
Definition download_translations (source language text : string)
    (unit : Unit) (user : User) : M World (list Candidate) :=
  let args := translate_args source language text in
  response <- json_req TRANSLATE_URL false false false args ;;
  ret [(response, 100, name, text)].

End Instance.

End MicrosoftTranslation.

(** ** MicrosoftTerminologyService.translate, lines 324-370 *)

Module MicrosoftTerminologyService.

Definition name := "Microsoft Terminology".

(** One tuple of [download_translations]:
    [(TranslatedText, ConfidenceLevel, self.name, OriginalText)]. *)
Definition Translation : Type := string * Z * string * string.

(** One entry of the list [translate] returns. *)
Record Suggestion := {
  text : string;
  quality : Z;
  service : string;
  source : string;
}.

(** The calls [translate] makes on its collaborators, latest first. *)
Inductive Event :=
| ConvertLanguage (code : string)
| IsSupported (source language : string)
| DownloadTranslations (source language text : string)
| ReportError (exc : PyExc) (message : string).

Definition World := list Event.

Definition emit (ev : Event) : M World unit :=
  fun w => (Return tt, ev :: w).

(** [lang.replace('_', '-').lower()], lines 338 and 343. *)
Definition widened (lang : string) : string :=
  PyStr.lower (PyStr.replace "_" "-" lang).

(** The loop of lines 336-339 (and 341-344): the first entry whose
    part before the underscore is [code] replaces it. *)
Fixpoint search (langs : list string) (code : string) : string :=
  match langs with
  | [] => code
  | lang :: rest =>
      if String.eqb (PyStr.split_head "_" lang) code then widened lang
      else search rest code
  end.

Section Service.

(** [weblate.lang.data.DEFAULT_LANGS], a flat list of
    [language_REGION] tags kept outside this module. *)
Variable DEFAULT_LANGS : list string.

(** [convert_language] is inherited from [MachineTranslation]
    (weblate.trans.machine.base): a pure mapping of codes. *)
Variable base_convert_language : string -> string.

(** The languages the service supports ([self.supported_languages]). *)
Variable supported_languages : gset string.

(** The outcome of [download_translations] (lines 298-322: the SOAP
    request and the reading of the candidates from the XML answer). *)
Variable soap_translations : string -> string -> string -> result (list Translation).

Definition convert_language (language : string) : M World string :=
  emit (ConvertLanguage language) ;;;
  ret (base_convert_language language).

(** Modelled from the spec: [is_supported] is inherited from
    [MachineTranslation] (weblate.trans.machine.base), which lies
    outside this module.  The check uses the provider's set
    of supported languages: both codes have to be in it. *)
Definition is_supported (source language : string) : M World bool :=
  emit (IsSupported source language) ;;;
  ret (bool_decide (language ∈ supported_languages) &&
       bool_decide (source ∈ supported_languages)).

Definition download_translations (source language text : string)
    (unit : Unit) (user : User) : M World (list Translation) :=
  emit (DownloadTranslations source language text) ;;;
  fun w => (soap_translations source language text, w).

(** [report_error] of the base class: hands the exception and the
    message to the error-reporting collaborator. *)
Definition report_error (exc : PyExc) (message : string) : M World unit :=
  emit (ReportError exc message).

(** Lines 335-339 for the target, 340-344 for the source. *)
Definition widen (code : string) : string :=
  if negb (PyStr.contains "-" code) || negb (PyStr.contains "_" code)
  then search DEFAULT_LANGS code
  else code.

(** Lines 349-370. *)
Definition fetch (source language text : string) (unit : Unit) (user : User)
    : M World (list Suggestion) :=
  try_except
    (translations <- download_translations source language text unit user ;;
     ret (map (fun trans : Translation =>
                 let '(t0, t1, t2, t3) := trans in
                 {| text := t0; quality := t1; service := t2; source := t3 |})
              translations))
    (fun exc =>
       report_error exc "Failed to fetch translations from %s" ;;;
       message <- lift_result (Py2.str exc) ;;
       message <- lift_result (Py2.decode_ascii message) ;;
       raise (MachineTranslationError (exc_class exc +:+ ": " +:+ message))).

(** Lines 324-370. *)
Definition translate (language text : string) (unit : Unit) (user : User)
    : M World (list Suggestion) :=
  if String.eqb text "" then ret []
  else
    language <- convert_language language ;;
    source <- convert_language (source_language_code unit) ;;
    supported <- is_supported source language ;;
    if negb supported then
      let language := widen language in
      let source := widen source in
      if String.eqb source language then ret []
      else
        supported <- is_supported source language ;;
        if negb supported then ret []
        else fetch source language text unit user
    else fetch source language text unit user.

End Service.

End MicrosoftTerminologyService.

(** ** Trace observers and sample data *)

Module Observe.
Import MicrosoftTerminologyService.

(** The arguments of the calls to [download_translations], latest first. *)
Fixpoint downloads (w : World) : list (string * string * string) :=
  match w with
  | [] => []
  | DownloadTranslations s l t :: rest => (s, l, t) :: downloads rest
  | _ :: rest => downloads rest
  end.

(** What was handed to [report_error], latest first. *)
Fixpoint reports (w : World) : list (PyExc * string) :=
  match w with
  | [] => []
  | ReportError exc msg :: rest => (exc, msg) :: reports rest
  | _ :: rest => reports rest
  end.

(** A tag of the locale table is [language_REGION]: the language part,
    before the underscore, has no hyphen. *)
Definition language_REGION (lang : string) : Prop :=
  PyStr.contains "-" (PyStr.split_head "_" lang) = false.

(** Some tags in the format of the locale table. *)
Definition sample_langs : list string :=
  ["de_DE"; "en_US"; "fr_FR"; "pt_PT"; "zh_CN"].

Definition en_fr : gset string := {[ "en"; "fr" ]}.

Definition bonjour (s l t : string) : result (list Translation) :=
  Return [("bonjour", 100, name, t)].

(** A transport failure of the download. *)
Definition timed_out (s l t : string) : result (list Translation) :=
  Raise (Exc "URLError" "<urlopen error timed out>").

(** The message [translate] passes to [report_error], line 365. *)
Definition failure_message : string := "Failed to fetch translations from %s".

(** What lines 367-370 raise for the exception [exc]: the
    MachineTranslationError, or what [str(exc)] or the formatting of its
    result raises. *)
Definition wrapped (exc : PyExc) : PyExc :=
  match Py2.str exc with
  | Raise error => error
  | Return message =>
      match Py2.decode_ascii message with
      | Raise error => error
      | Return message =>
          MachineTranslationError (exc_class exc +:+ ": " +:+ message)
      end
  end.

(** The character U+00E9. *)
Definition e_acute : ascii := ascii_of_nat 233.

(** A text with characters beyond ASCII. *)
Definition delai_depasse : string :=
  "D" +:+ String e_acute "lai d" +:+ String e_acute "pass" +:+ String e_acute EmptyString.

(** A download that fails with a text message beyond ASCII. *)
Definition unavailable (s l t : string) : result (list Translation) :=
  Raise (MachineTranslationError delai_depasse).

(** A download that fails with a byte-string message beyond ASCII. *)
Definition garbled (s l t : string) : result (list Translation) :=
  Raise (Exc "MachineTranslationError" delai_depasse).

Definition unit_of (code : string) : Unit := {| source_language_code := code |}.

Definition nobody : User := {| username := "" |}.

End Observe.

(** ** Requests and sample remote ends of the REST provider *)

Module Wire.
Import MicrosoftTranslation.

(** The authentication request of [access_token], lines 76-84. *)
Definition oauth_request (client_id client_secret : string) : Request :=
  {| url := OAUTH_URL; http_post := true; raw := false; headers := [];
     params := oauth_args client_id client_secret |}.

(** The translation request of [download_translations], carrying the
    bearer token. *)
Definition translate_request (token : option string)
    (source language text : string) : Request :=
  {| url := TRANSLATE_URL; http_post := false; raw := false;
     headers := [("Authorization", format_bearer token)];
     params := translate_args source language text |}.

(** A refresh is due at the next reading of the clock: no token is
    held, or its expiry has come. *)
Definition due (timezone_now : nat -> Z) (w : World) : Prop :=
  _access_token w = None \/
  exists e, _token_expiry w = Some e /\ e <= timezone_now (clock_reads w).

(** What lines 87-90 raise for an answer with an error field. *)
Definition refusal (data : gmap string JVal) : PyExc :=
  match add_values (default (JText "Unknown Error") (data !! "error"))
                   (default (JText "No Error Description") (data !! "error_description")) with
  | Return message => MachineTranslationError message
  | Raise exc => exc
  end.

(** [c * n]. *)
Fixpoint times (c : ascii) (n : nat) : string :=
  match n with
  | O => EmptyString
  | S k => String c (times c k)
  end.

(** A text of 5001 characters. *)
Definition long_text : string := times "a" (S 5000).

(** A remote end that grants the token "t0k3n" and translates to
    "bonjour". *)
Definition granting (history : list Request) (req : Request) : result Json :=
  if String.eqb (url req) OAUTH_URL
  then Return (JObj (<["access_token" := "t0k3n"]> ∅))
  else Return (JStr "bonjour").

(** A remote end that refuses the credentials. *)
Definition refusing (history : list Request) (req : Request) : result Json :=
  Return (JObj (<["error" := "invalid_client"]>
                (<["error_description" := ": unknown client"]> ∅))).

(** A clock that advances one second per reading. *)
Definition ticking (k : nat) : Z := Z.of_nat k * 1000000.

End Wire.

(** ** Two callers of access_token on one instance

    The property reads and writes the fields of the instance in five
    phases, and nothing in the class keeps a second caller from moving
    between any two of them.  Each phase is taken as one step; a finer
    division would only add schedules. *)

Module Concurrent.
Import MicrosoftTranslation.

(** Where a caller of [access_token] stands. *)
Inductive Caller :=
| Checking
| Requesting
| InstallingToken (data : Json)
| InstallingExpiry
| Returning
| Finished (r : result (option string)).

(** How often a caller moves in a schedule; [true] names the first
    caller, [false] the second. *)
Definition moves (who : bool) (schedule : list bool) : nat :=
  length (List.filter (Bool.eqb who) schedule).

Section Instance.

Variable MT_MICROSOFT_ID MT_MICROSOFT_SECRET : string.
Variable timezone_now : nat -> Z.
Variable urlopen : list Request -> Request -> result Json.

(** Line 75: whether to refresh. *)
Definition check : M World bool :=
  token <- get_access_token ;;
  match token with
  | None => ret true
  | Some _ => is_token_expired timezone_now
  end.

(** Lines 76-84: the authentication request. *)
Definition request : M World Json :=
  json_req_with urlopen (ret []) OAUTH_URL true true false
    (oauth_args MT_MICROSOFT_ID MT_MICROSOFT_SECRET).

(** Lines 86-92: the answer is looked at and the token assigned. *)
Definition install_token (data : Json) : M World unit :=
  match data with
  | JObject data =>
      if bool_decide (is_Some (data !! "error")) then
        message <- lift_result
                     (add_values
                        (default (JText "Unknown Error") (data !! "error"))
                        (default (JText "No Error Description")
                           (data !! "error_description"))) ;;
        raise (MachineTranslationError message)
      else
        match data !! "access_token" with
        | Some token => set_access_token (to_token token)
        | None => raise (Exc "KeyError" "u'access_token'")
        end
  | JStr data =>
      if PyStr.contains_str "error" data then
        raise (Exc "AttributeError" "'unicode' object has no attribute 'get'")
      else raise (Exc "TypeError" "string indices must be integers")
  end.

(** Line 93: the expiry is assigned. *)
Definition install_expiry : M World unit :=
  t <- now timezone_now ;;
  set_token_expiry (Some (t + TOKEN_EXPIRY)).

(** [access_token] as the sequence of its phases. *)
Definition phases : M World (option string) :=
  refresh <- check ;;
  (if refresh : bool then
     data <- request ;;
     install_token data ;;;
     install_expiry
   else ret tt) ;;;
  get_access_token.

Definition advance {A} (m : M World A) (next : A -> Caller) (w : World)
    : Caller * World :=
  match m w with
  | (Return a, w') => (next a, w')
  | (Raise exc, w') => (Finished (Raise exc), w')
  end.

(** One phase of a caller. *)
Definition step (c : Caller) (w : World) : Caller * World :=
  match c with
  | Checking =>
      advance check (fun refresh : bool => if refresh then Requesting else Returning) w
  | Requesting => advance request InstallingToken w
  | InstallingToken data => advance (install_token data) (fun _ => InstallingExpiry) w
  | InstallingExpiry => advance install_expiry (fun _ => Returning) w
  | Returning => advance get_access_token (fun token => Finished (Return token)) w
  | Finished r => (Finished r, w)
  end.

(** Two callers on one instance, moving as the schedule says. *)
Fixpoint run (schedule : list bool) (a b : Caller) (w : World)
    : Caller * Caller * World :=
  match schedule with
  | [] => (a, b, w)
  | true :: rest => let '(a', w') := step a w in run rest a' b w'
  | false :: rest => let '(b', w') := step b w in run rest a b' w'
  end.

End Instance.

(** A remote end that grants a new token with each authentication. *)
Definition issuing (history : list Request) (req : Request) : result Json :=
  Return (JObj (<["access_token" := "token-" +:+ Py2.decimal (length history)]> ∅)).

End Concurrent.

(** ** MicrosoftTranslation.download_languages, lines 117-128 *)

Module MicrosoftLanguages.
Import MicrosoftTranslation.

Section Instance.

Variable MT_MICROSOFT_ID MT_MICROSOFT_SECRET : string.
Variable timezone_now : nat -> Z.
Variable urlopen : list Request -> Request -> result Json.

(** [self.json_req(LIST_URL)]: no keyword arguments. *)
Definition download_languages : M World Json :=
  json_req MT_MICROSOFT_ID MT_MICROSOFT_SECRET timezone_now urlopen
    LIST_URL false false false ∅.

End Instance.

(** The request of [download_languages], carrying the bearer token. *)
Definition list_request (token : option string) : Request :=
  {| url := LIST_URL; http_post := false; raw := false;
     headers := [("Authorization", format_bearer token)];
     params := ∅ |}.

(** The cache never holds a token without an expiry. *)
Definition token_has_expiry (w : World) : Prop :=
  is_Some (_access_token w) -> is_Some (_token_expiry w).

End MicrosoftLanguages.

(** ** MicrosoftCognitiveTranslation.access_token, lines 163-176 *)

Module MicrosoftCognitiveTranslation.
Import MicrosoftTranslation.

Definition COGNITIVE_BASE_URL := "https://api.cognitive.microsoft.com/sts/v1.0".

(** [COGNITIVE_TOKEN.format(key)]. *)
Definition COGNITIVE_TOKEN (key : string) : string :=
  COGNITIVE_BASE_URL +:+ "/issueToken?Subscription-Key=" +:+ key.

Section Instance.

(** [settings.MT_MICROSOFT_COGNITIVE_KEY]. *)
Variable MT_MICROSOFT_COGNITIVE_KEY : string.

Variable timezone_now : nat -> Z.

(** The remote end for a request with [raw=True]: the text of the
    answer, given the requests sent before it. *)
Variable urlopen_raw : list Request -> Request -> result string.

Definition send_raw (req : Request) : M World string :=
  fun w =>
    (urlopen_raw (sent w) req,
     {| _access_token := _access_token w; _token_expiry := _token_expiry w;
        clock_reads := clock_reads w; sent := req :: sent w |}).

(** Modelled from the spec: [json_req] of the base class, called with
    [raw=True]; the answer comes back as text, not decoded. *)
Definition json_req_raw_with (authenticate : M World (list (string * string)))
    (url : string) (http_post skip_auth : bool)
    (kwargs : gmap string string) : M World string :=
  hdrs <- (if skip_auth then ret [] else authenticate) ;;
  send_raw {| url := url; http_post := http_post; raw := true;
              headers := hdrs; params := kwargs |}.

(** Lines 163-176: the answer is installed as it is. *)
Definition access_token : M World (option string) :=
  token <- get_access_token ;;
  refresh <- (match token with
              | None => ret true
              | Some _ => is_token_expired timezone_now
              end) ;;
  (if refresh : bool then
     token <- json_req_raw_with (ret [])
                (COGNITIVE_TOKEN MT_MICROSOFT_COGNITIVE_KEY) true true
                (<["fake" := "1"]> ∅) ;;
     set_access_token (Some token) ;;;
     t <- now timezone_now ;;
     set_token_expiry (Some (t + TOKEN_EXPIRY))
   else ret tt) ;;;
  get_access_token.

(** The inherited hook, lines 97-102, on the overridden property. *)
Definition authenticate : M World (list (string * string)) :=
  token <- access_token ;;
  ret [("Authorization", format_bearer token)].

End Instance.

(** The key-exchange request of [access_token]. *)
Definition token_request (key : string) : Request :=
  {| url := COGNITIVE_TOKEN key; http_post := true; raw := true; headers := [];
     params := <["fake" := "1"]> ∅ |}.

End MicrosoftCognitiveTranslation.

(** ** MicrosoftTerminologyService: the SOAP requests, lines 199-322 *)

Module Soap.

Definition MS_TM_BASE := "http://api.terminology.microsoft.com".
Definition MS_TM_API_URL := MS_TM_BASE +:+ "/Terminology.svc".
Definition MS_TM_SOAP_XMLNS := MS_TM_BASE +:+ "/terminology".
Definition MS_TM_SOAP_HEADER := MS_TM_SOAP_XMLNS +:+ "/Terminology/".
Definition MS_TM_XPATH := ".//{" +:+ MS_TM_SOAP_XMLNS +:+ "}".

Definition LANGS_TEMPLATE := "trans/machine/microsoft_terminology_get_langs.jinja".
Definition TRANSLATE_TEMPLATE := "trans/machine/microsoft_terminology_translate.jinja".

(** A value of the payload handed to the template. *)
Inductive Val :=
| VStr (s : string)
| VInt (z : Z)
| VUuid (u : string).

(** A request: address, timeout in milliseconds ([None] for the
    default of the sockets), headers and data. *)
Record Request := {
  url : string;
  timeout_ms : option Z;
  headers : gmap string string;
  data : string;
}.

(** The answer of [urlopen]: [code], [msg] and what [read()] gives. *)
Record Handle := {
  code : Z;
  msg : string;
  body : string;
}.

(** An element of the parsed answer: tag (with its namespace in braces),
    text and children. *)
#[warnings="-register-all"]
Inductive Element :=
| Elem (tag : string) (text : option string) (children : list Element).

Definition tag_of (e : Element) : string := let 'Elem t _ _ := e in t.
Definition text_of (e : Element) : option string := let 'Elem _ x _ := e in x.
Definition children_of (e : Element) : list Element := let 'Elem _ _ c := e in c.

(** [e.find('.//' + tag)]: the first element below [e], in document
    order, with that tag. *)
Fixpoint find (tag : string) (e : Element) : option Element :=
  let 'Elem _ _ children := e in
  (fix among (l : list Element) : option Element :=
     match l with
     | [] => None
     | c :: rest =>
         if String.eqb (tag_of c) tag then Some c
         else match find tag c with
              | Some found => Some found
              | None => among rest
              end
     end) children.

(** The tag of a name in the namespace of the service;
    [MS_TM_XPATH + name] is the path ['.//' + qualified name]. *)
Definition qualified (name : string) : string :=
  "{" +:+ MS_TM_SOAP_XMLNS +:+ "}" +:+ name.

(** The requests sent and the number of identifiers drawn. *)
Record World := {
  sent : list Request;
  uuids : nat;
}.

Definition fresh : World := {| sent := []; uuids := O |}.

(** The double quote. *)
Definition dquote : string := String (ascii_of_nat 34) EmptyString.

(** Truth value of a string: the empty string is false. *)
Definition truthy (s : string) : bool := negb (String.eqb s EmptyString).

Definition lift {A} (r : result A) : M World A := fun w => (r, w).

Section Service.

(** The template engine: [get_template] and [template.render]. *)
Variable Template : Type.
Variable get_template : string -> result Template.
Variable render : Template -> gmap string Val -> result string.

(** [uuid4()]: the k-th identifier drawn. *)
Variable uuid4 : nat -> string.

(** The remote end. *)
Variable urlopen : list Request -> Request -> result Handle.

(** [ET.fromstring] and the builtin [int], applied to the text of an
    element. *)
Variable fromstring : string -> result Element.
Variable int : option string -> result Z.

Definition draw_uuid : M World string :=
  fun w => (Return (uuid4 (uuids w)), {| sent := sent w; uuids := S (uuids w) |}).

(** [urlopen(request)], called without a timeout: the opener puts its
    default in [request.timeout] before the request goes out. *)
Definition send (req : Request) : M World Handle :=
  fun w =>
    let req := {| url := url req; timeout_ms := None;
                  headers := headers req; data := data req |} in
    (urlopen (sent w) req, {| sent := req :: sent w; uuids := uuids w |}).

(** Lines 205-248.  [None] stands for [payload] and [template] left
    unbound by lines 219-233. *)
Definition soap_req (url : string) (http_post skip_auth : bool)
    (kwargs : gmap string string) : M World Handle :=
  let soap_action := default EmptyString (kwargs !! "soap_action") in
  let url := MS_TM_API_URL in
  let action := MS_TM_SOAP_HEADER +:+ soap_action in
  let headers : gmap string string :=
    <["SOAPAction" := dquote +:+ action +:+ dquote]>
    (<["Content-Type" := "text/xml; charset=utf-8"]> ∅) in
  prepared <-
    (if String.eqb soap_action "GetLanguages" then
       let payload : gmap string Val :=
         <["xmlns" := VStr MS_TM_SOAP_XMLNS]>
         (<["soap_action" := VStr soap_action]> ∅) in
       template <- lift (get_template LANGS_TEMPLATE) ;;
       ret (Some (payload, template))
     else if String.eqb soap_action "GetTranslations" then
       let source := default EmptyString (kwargs !! "source") in
       let language := default EmptyString (kwargs !! "language") in
       let text := default EmptyString (kwargs !! "text") in
       let max_result := 5 in
       if truthy soap_action && truthy source && truthy language && truthy text then
         uuid <- draw_uuid ;;
         let payload : gmap string Val :=
           <["action" := VStr action]>
           (<["url" := VStr url]>
           (<["xmlns" := VStr MS_TM_SOAP_XMLNS]>
           (<["uuid" := VUuid uuid]>
           (<["text" := VStr text]>
           (<["from_lang" := VStr source]>
           (<["to_lang" := VStr language]>
           (<["max_result" := VInt max_result]> ∅))))))) in
         template <- lift (get_template TRANSLATE_TEMPLATE) ;;
         ret (Some (payload, template))
       else ret None
     else
       raise (Exc "AttributeError"
                "'MachineTranslationError' object has no attribute 'format'")) ;;
  try_except
    (match prepared with
     | None =>
         raise (Exc "UnboundLocalError"
                  "local variable 'template' referenced before assignment")
     | Some (payload, template) =>
         payload <- lift (render template payload) ;;
         send {| url := url; timeout_ms := Some 500; headers := headers;
                 data := payload |}
     end)
    (fun error =>
       message <- lift (Py2.unicode error) ;;
       raise (MachineTranslationError message)).

(** Lines 259-267; [response.msg] is a byte string. *)
Definition soap_status_req (url : string) (http_post skip_auth : bool)
    (kwargs : gmap string string) : M World Handle :=
  response <- soap_req url http_post skip_auth kwargs ;;
  if negb (code response =? 200) then
    raise (Exc "MachineTranslationError" (msg response))
  else ret response.

(** Lines 269-280. *)
Definition json_status_req (url : string) (http_post skip_auth : bool)
    (kwargs : gmap string string) : M World Handle :=
  response <- soap_status_req url http_post true kwargs ;;
  if negb (code response =? 200) then
    raise (Exc "MachineTranslationError" (msg response))
  else ret response.

(** [element.find(path).text]; without the element, the attribute of
    [None] is an [AttributeError]. *)
Definition find_text (tag : string) (e : Element) : M World (option string) :=
  match find tag e with
  | Some found => ret (text_of found)
  | None => raise (Exc "AttributeError" "'NoneType' object has no attribute 'text'")
  end.

(** The loop of lines 294-295. *)
Fixpoint language_codes (langs : list Element) (languages : list (option string))
    : M World (list (option string)) :=
  match langs with
  | [] => ret languages
  | lang :: rest =>
      code <- find_text (qualified "Code") lang ;;
      language_codes rest (languages ++ [code])%list
  end.

(** Lines 282-296. *)
Definition download_languages : M World (list (option string)) :=
  resp <- soap_status_req MS_TM_API_URL false false
            (<["soap_action" := "GetLanguages"]> ∅) ;;
  root <- lift (fromstring (body resp)) ;;
  match find (qualified "GetLanguagesResult") root with
  | Some results => language_codes (children_of results) []
  | None => ret []
  end.

(** One tuple of lines 316-321. *)
Definition Translation : Type := option string * Z * string * option string.

(** The loop of lines 315-321. *)
Fixpoint translation_tuples (results : list Element) (translations : list Translation)
    : M World (list Translation) :=
  match results with
  | [] => ret translations
  | translation :: rest =>
      translated <- find_text (qualified "TranslatedText") translation ;;
      confidence <- find_text (qualified "ConfidenceLevel") translation ;;
      confidence <- lift (int confidence) ;;
      original <- find_text (qualified "OriginalText") translation ;;
      translation_tuples rest
        (translations ++
         [(translated, confidence, MicrosoftTerminologyService.name, original)])%list
  end.

(** Lines 298-322. *)
Definition download_translations (source language text : string)
    (unit : Unit) (user : User) : M World (list Translation) :=
  resp <- soap_status_req MS_TM_API_URL false false
            (<["soap_action" := "GetTranslations"]>
             (<["source" := source]>
             (<["language" := language]>
             (<["text" := text]> ∅)))) ;;
  root <- lift (fromstring (body resp)) ;;
  match find (qualified "GetTranslationsResult") root with
  | Some results => translation_tuples (children_of results) []
  | None => ret []
  end.

End Service.

End Soap.

(** ** Readings of results and further sample data *)

Module Samples.

(** A suggestion of [translate] read back as a tuple. *)
Definition to_tuple (s : MicrosoftTerminologyService.Suggestion)
    : MicrosoftTerminologyService.Translation :=
  (MicrosoftTerminologyService.text s, MicrosoftTerminologyService.quality s,
   MicrosoftTerminologyService.service s, MicrosoftTerminologyService.source s).

(** The pair [translate] checks first: the converted source and target. *)
Definition first_pair_supported (convert : string -> string) (supported : gset string)
    (unit : Unit) (language : string) : bool :=
  bool_decide (convert language ∈ supported) &&
  bool_decide (convert (source_language_code unit) ∈ supported).

(** A download that answers two tuples. *)
Definition two_tuples (s l t : string)
    : result (list MicrosoftTerminologyService.Translation) :=
  Return [("bonjour", 90, MicrosoftTerminologyService.name, t);
          ("salut", 70, MicrosoftTerminologyService.name, t)].

Definition en_us_fr_fr : gset string := {[ "en-us"; "fr-fr" ]}.

(** The headers of a SOAP request for an action. *)
Definition soap_headers (soap_action : string) : gmap string string :=
  <["SOAPAction" := Soap.dquote +:+ (Soap.MS_TM_SOAP_HEADER +:+ soap_action) +:+ Soap.dquote]>
  (<["Content-Type" := "text/xml; charset=utf-8"]> ∅).

(** The text of the [Code] below a language element, if there is one. *)
Definition code_text (lang : Soap.Element) : option string :=
  match Soap.find (Soap.qualified "Code") lang with
  | Some found => Soap.text_of found
  | None => None
  end.

Definition has_code (lang : Soap.Element) : Prop :=
  is_Some (Soap.find (Soap.qualified "Code") lang).

(** A cache holding the token "old", due since the instant 0. *)
Definition stale : MicrosoftTranslation.World :=
  {| MicrosoftTranslation._access_token := Some "old";
     MicrosoftTranslation._token_expiry := Some 0;
     MicrosoftTranslation.clock_reads := O;
     MicrosoftTranslation.sent := [] |}.

(** A remote end whose authentication answer has neither error nor token. *)
Definition tokenless (history : list MicrosoftTranslation.Request)
    (req : MicrosoftTranslation.Request) : result MicrosoftTranslation.Json :=
  Return (MicrosoftTranslation.JObj ∅).

(** A remote end whose authentication answer has a null token. *)
Definition granting_null (history : list MicrosoftTranslation.Request)
    (req : MicrosoftTranslation.Request) : result MicrosoftTranslation.Json :=
  if String.eqb (MicrosoftTranslation.url req) MicrosoftTranslation.OAUTH_URL
  then Return (MicrosoftTranslation.JObject
                 (<["access_token" := MicrosoftTranslation.JNull]> ∅))
  else Return (MicrosoftTranslation.JStr "bonjour").

(** A remote end that cannot be reached. *)
Definition unreachable (history : list MicrosoftTranslation.Request)
    (req : MicrosoftTranslation.Request) : result MicrosoftTranslation.Json :=
  Raise (Exc "URLError" "<urlopen error timed out>").

(** A key exchange that answers the text "raw-t0k3n". *)
Definition exchanging (history : list MicrosoftTranslation.Request)
    (req : MicrosoftTranslation.Request) : result string :=
  Return "raw-t0k3n".

(** A template engine whose documents are the names of the templates. *)
Definition named_template (name : string) : result string := Return name.
Definition named_render (template : string) (payload : gmap string Soap.Val)
    : result string := Return template.

Definition nil_uuid (k : nat) : string := "00000000-0000-0000-0000-000000000000".

(** A service that answers every request with the status 200. *)
Definition answering (history : list Soap.Request) (req : Soap.Request)
    : result Soap.Handle :=
  Return {| Soap.code := 200; Soap.msg := "OK"; Soap.body := "<s:Envelope/>" |}.

(** A service that answers every request with the status 500. *)
Definition failing (history : list Soap.Request) (req : Soap.Request)
    : result Soap.Handle :=
  Return {| Soap.code := 500; Soap.msg := "Internal Server Error";
            Soap.body := EmptyString |}.

(** An answer with two languages, and its result element. *)
Definition languages_result : Soap.Element :=
  Soap.Elem (Soap.qualified "GetLanguagesResult") None
    [Soap.Elem (Soap.qualified "Language") None
       [Soap.Elem (Soap.qualified "Code") (Some "en-us") []];
     Soap.Elem (Soap.qualified "Language") None
       [Soap.Elem (Soap.qualified "Code") (Some "fr-fr") []]].

Definition languages_tree : Soap.Element :=
  Soap.Elem "Envelope" None
    [Soap.Elem "Body" None
       [Soap.Elem (Soap.qualified "GetLanguagesResponse") None [languages_result]]].

(** An answer with one translation. *)
Definition translations_tree : Soap.Element :=
  Soap.Elem "Envelope" None
    [Soap.Elem "Body" None
       [Soap.Elem (Soap.qualified "GetTranslationsResponse") None
          [Soap.Elem (Soap.qualified "GetTranslationsResult") None
             [Soap.Elem (Soap.qualified "Match") None
                [Soap.Elem (Soap.qualified "ConfidenceLevel") (Some "100") [];
                 Soap.Elem (Soap.qualified "OriginalText") (Some "hello") [];
                 Soap.Elem (Soap.qualified "Translations") None
                   [Soap.Elem (Soap.qualified "Translation") None
                      [Soap.Elem (Soap.qualified "TranslatedText") (Some "bonjour") []]]]]]]].

Definition parse_languages (document : string) : result Soap.Element :=
  Return languages_tree.

Definition parse_translations (document : string) : result Soap.Element :=
  Return translations_tree.

(** [int] on the text "100"; anything else here is refused. *)
Definition int_100 (text : option string) : result Z :=
  match text with
  | Some "100" => Return 100
  | _ => Raise (Exc "ValueError" "invalid literal for int() with base 10")
  end.

(** The message of the failure for a request that was not built. *)
Definition unbound_template : string :=
  "local variable 'template' referenced before assignment".

End Samples.

(** ** The language codecs *)

Section Codec.

(** C8: for each REST provider's own table, [convert_language] (a
    function, hence deterministic and free of effects) maps "zh_TW" to
    the traditional-Chinese code "zh-CHT" and "pt_BR" to "pt":
    MicrosoftTranslation by its explicit rules,
    MicrosoftCognitiveTranslation by its table for "zh-tw" and, "pt-br"
    being absent from the table, by cutting the region off. *)
Theorem convert_language_zh_TW_pt_BR :
  MicrosoftTranslationCodec.convert_language "zh_TW" = "zh-CHT" /\
  MicrosoftTranslationCodec.convert_language "pt_BR" = "pt" /\
  MicrosoftCognitiveCodec.convert_language "zh_TW" = "zh-CHT" /\
  MicrosoftCognitiveCodec.convert_language "pt_BR" = "pt" /\
  MicrosoftCognitiveCodec.LANGUAGE_CONVERTER !! "zh-tw" = Some "zh-CHT" /\
  MicrosoftCognitiveCodec.LANGUAGE_CONVERTER !! "pt-br" = None /\
  PyStr.split_head "-" "pt-br" = "pt".
Proof. repeat split; vm_compute; reflexivity. Qed.

End Codec.

(** ** Facts about the string operations *)

Section PyStrFacts.

Lemma split_head_no_sep (sep : ascii) (s : string) :
  PyStr.contains sep (PyStr.split_head sep s) = false.
Proof.
  induction s as [|x rest IH]; simpl; [reflexivity|].
  destruct (Ascii.eqb x sep) eqn:E; simpl; [reflexivity|].
  rewrite E. exact IH.
Qed.

Lemma split_head_length (sep : ascii) (s : string) :
  (String.length (PyStr.split_head sep s) <= String.length s)%nat.
Proof.
  induction s as [|x rest IH]; simpl; [lia|].
  destruct (Ascii.eqb x sep); simpl; lia.
Qed.

Lemma replace_length (a b : ascii) (s : string) :
  String.length (PyStr.replace a b s) = String.length s.
Proof. induction s as [|x rest IH]; simpl; congruence. Qed.

Lemma lower_length (s : string) :
  String.length (PyStr.lower s) = String.length s.
Proof. induction s as [|x rest IH]; simpl; congruence. Qed.

Lemma slice_to_length (n : nat) (s : string) :
  String.length (PyStr.slice_to n s) = Nat.min n (String.length s).
Proof.
  revert s. induction n as [|k IH]; intros [|x rest]; simpl; try reflexivity.
  now rewrite IH.
Qed.

Lemma slice_to_prefix (n : nat) (s : string) :
  String.prefix (PyStr.slice_to n s) s = true.
Proof.
  revert s. induction n as [|k IH]; intros [|x rest]; simpl; try reflexivity.
  destruct (ascii_dec x x) as [_|N]; [apply IH | now destruct N].
Qed.

Lemma slice_to_all (n : nat) (s : string) :
  (String.length s <= n)%nat -> PyStr.slice_to n s = s.
Proof.
  revert s. induction n as [|k IH]; intros [|x rest]; simpl; intros H;
    try reflexivity; [lia|].
  f_equal. apply IH. lia.
Qed.

End PyStrFacts.

(** ** The widening step of the terminology service *)

Section Widening.
Import MicrosoftTerminologyService Observe.

Variable DEFAULT_LANGS : list string.

Lemma widened_length (lang : string) :
  String.length (widened lang) = String.length lang.
Proof. unfold widened. now rewrite lower_length, replace_length. Qed.

(** The search hands back the code itself, or the widened form of an
    entry whose language part is the code. *)
Lemma search_cases (langs : list string) (code : string) :
  search langs code = code \/
  exists lang, In lang langs /\ PyStr.split_head "_" lang = code /\
               search langs code = widened lang.
Proof.
  induction langs as [|lang rest IH]; simpl; [now left|].
  destruct (String.eqb (PyStr.split_head "_" lang) code) eqn:E.
  - right. exists lang. apply String.eqb_eq in E. auto.
  - destruct IH as [IH|(l' & Hin & Hs & Hw)]; [now left|].
    right. exists l'. auto.
Qed.

Lemma search_underscore (langs : list string) (code : string) :
  PyStr.contains "_" code = true -> search langs code = code.
Proof.
  intros Hc. induction langs as [|lang rest IH]; simpl; [reflexivity|].
  destruct (String.eqb (PyStr.split_head "_" lang) code) eqn:E; [|exact IH].
  apply String.eqb_eq in E. subst code.
  rewrite split_head_no_sep in Hc. discriminate.
Qed.

Lemma search_hyphen (langs : list string) (code : string) :
  Forall language_REGION langs ->
  PyStr.contains "-" code = true -> search langs code = code.
Proof.
  intros Hfmt Hc. induction Hfmt as [|lang rest Hl _ IH]; simpl; [reflexivity|].
  destruct (String.eqb (PyStr.split_head "_" lang) code) eqn:E; [|exact IH].
  apply String.eqb_eq in E. subst code.
  unfold language_REGION in Hl. congruence.
Qed.

(** C1: in the widening step each side goes through [widen] on its
    own.  With a locale table of [language_REGION] tags, a code that
    has a separator (hyphen or underscore) comes out unchanged, and a
    code is replaced only when it has no separator, by the widened
    form of a table entry whose language part is that code. *)
Theorem widen_only_without_separator (code : string) :
  Forall language_REGION DEFAULT_LANGS ->
  (PyStr.contains "-" code || PyStr.contains "_" code = true ->
   widen DEFAULT_LANGS code = code) /\
  (widen DEFAULT_LANGS code <> code ->
   PyStr.contains "-" code = false /\ PyStr.contains "_" code = false /\
   exists lang, In lang DEFAULT_LANGS /\ PyStr.split_head "_" lang = code /\
                widen DEFAULT_LANGS code = widened lang).
Proof.
  intros Hfmt.
  assert (Hsep : PyStr.contains "-" code || PyStr.contains "_" code = true ->
                 widen DEFAULT_LANGS code = code).
  { intros Hs. unfold widen.
    destruct (negb (PyStr.contains "-" code) || negb (PyStr.contains "_" code));
      [|reflexivity].
    apply orb_true_iff in Hs. destruct Hs as [Hh|Hu].
    - now apply search_hyphen.
    - now apply search_underscore. }
  split; [exact Hsep|].
  intros Hne.
  destruct (PyStr.contains "-" code) eqn:Eh.
  { exfalso. apply Hne, Hsep. reflexivity. }
  destruct (PyStr.contains "_" code) eqn:Eu.
  { exfalso. apply Hne, Hsep. reflexivity. }
  repeat split.
  unfold widen in *. rewrite Eh, Eu in *. simpl in *.
  destruct (search_cases DEFAULT_LANGS code) as [Hs|Hs]; [contradiction|exact Hs].
Qed.

End Widening.

Lemma widen_only_without_separator_witness :
  Forall Observe.language_REGION Observe.sample_langs /\
  MicrosoftTerminologyService.widen Observe.sample_langs "pt-br" = "pt-br" /\
  MicrosoftTerminologyService.widen Observe.sample_langs "pt_BR" = "pt_BR" /\
  MicrosoftTerminologyService.widen Observe.sample_langs "pt" = "pt-pt".
Proof.
  assert (H : Forall Observe.language_REGION Observe.sample_langs).
  { repeat constructor. }
  split; [exact H|].
  pose proof (widen_only_without_separator Observe.sample_langs "pt-br" H) as [A _].
  pose proof (widen_only_without_separator Observe.sample_langs "pt_BR" H) as [B _].
  split; [apply A; reflexivity|].
  split; [apply B; reflexivity|].
  reflexivity.
Defined.

(** ** translate of the terminology service *)

Section Translate.
Import MicrosoftTerminologyService Observe.

Variable DEFAULT_LANGS : list string.
Variable base_convert_language : string -> string.
Variable supported_languages : gset string.
Variable soap_translations : string -> string -> string -> result (list Translation).

Local Abbreviation translate :=
  (translate DEFAULT_LANGS base_convert_language supported_languages soap_translations).
Local Abbreviation fetch := (fetch soap_translations).

Lemma fetch_raise (s l t : string) (unit : Unit) (user : User) (w : World) (exc : PyExc) :
  soap_translations s l t = Raise exc ->
  fetch s l t unit user w =
    (Raise (wrapped exc),
     ReportError exc failure_message :: DownloadTranslations s l t :: w).
Proof.
  intros H. unfold MicrosoftTerminologyService.fetch, try_except,
    download_translations, report_error, emit, bind, raise, lift_result, wrapped.
  simpl. rewrite H.
  destruct (Py2.str exc) as [message|error]; [|reflexivity].
  destruct (Py2.decode_ascii message); reflexivity.
Qed.

Lemma fetch_return (s l t : string) (unit : Unit) (user : User) (w : World)
    (trs : list Translation) :
  soap_translations s l t = Return trs ->
  exists out, fetch s l t unit user w = (Return out, DownloadTranslations s l t :: w) /\
              length out = length trs.
Proof.
  intros H. unfold MicrosoftTerminologyService.fetch, try_except,
    download_translations, report_error, emit, bind, ret. simpl.
  rewrite H. eexists. split; [reflexivity|]. now rewrite length_map.
Qed.

(** A run of [translate] either stops before the download, having
    reported nothing, with the empty list, or ends in [fetch]. *)
Lemma translate_cases (language text : string) (unit : Unit) (user : User) (w : World) :
  (exists w', translate language text unit user w = (Return [], w') /\
              downloads w' = downloads w /\ reports w' = reports w) \/
  (exists s l w0, translate language text unit user w = fetch s l text unit user w0 /\
                  downloads w0 = downloads w /\ reports w0 = reports w).
Proof.
  unfold MicrosoftTerminologyService.translate.
  destruct (String.eqb text "").
  { left. exists w. auto. }
  unfold convert_language, is_supported, emit, bind, ret. simpl.
  match goal with |- context [negb ?b] => destruct b end; simpl.
  { right. do 3 eexists. split; [reflexivity|]. auto. }
  match goal with |- context [String.eqb ?a ?b] => destruct (String.eqb a b) end.
  { left. eexists. split; [reflexivity|]. auto. }
  match goal with |- context [negb ?b] => destruct b end; simpl.
  { right. do 3 eexists. split; [reflexivity|]. auto. }
  left. eexists. split; [reflexivity|]. auto.
Qed.

(** When the pair is not supported as it stands, the pair that is
    checked next is made of the two sides widened each on its own. *)
Lemma translate_rechecks_widened_pair (language text : string) (unit : Unit)
    (user : User) (w : World) :
  let l := base_convert_language language in
  let s := base_convert_language (source_language_code unit) in
  String.eqb text "" = false ->
  bool_decide (l ∈ supported_languages) && bool_decide (s ∈ supported_languages) = false ->
  String.eqb (widen DEFAULT_LANGS s) (widen DEFAULT_LANGS l) = false ->
  exists pre,
    snd (translate language text unit user w) =
      (pre ++ IsSupported (widen DEFAULT_LANGS s) (widen DEFAULT_LANGS l)
           :: IsSupported s l
           :: ConvertLanguage (source_language_code unit)
           :: ConvertLanguage language :: w)%list.
Proof.
  intros l s Htext Hfirst Hdiff.
  unfold MicrosoftTerminologyService.translate. rewrite Htext.
  unfold convert_language, is_supported, emit, bind, ret. simpl.
  fold l s. rewrite Hfirst. simpl. rewrite Hdiff.
  match goal with |- context [negb ?b] => destruct b end; simpl.
  - match goal with |- context [MicrosoftTerminologyService.fetch _ ?a ?b ?c ?u ?v ?w0] =>
      destruct (soap_translations a b c) as [trs|exc] eqn:Es;
      [destruct (fetch_return a b c u v w0 trs Es) as (out & -> & _)
      |rewrite (fetch_raise a b c u v w0 exc Es)] end.
    + exists [DownloadTranslations (widen DEFAULT_LANGS s) (widen DEFAULT_LANGS l) text].
      reflexivity.
    + eexists [_; _]. reflexivity.
  - exists []. reflexivity.
Qed.

(** C7: with the empty string as text, [translate] returns the empty
    list at once and calls no collaborator: no language conversion, no
    support check, no download, whatever the pair and the context. *)
Theorem translate_empty_text (language : string) (unit : Unit) (user : User) (w : World) :
  translate language "" unit user w = (Return [], w).
Proof. reflexivity. Qed.

End Translate.

(** C3: the handler of [translate] does not turn every exception of
    the download into a MachineTranslationError.  For a download that
    raises an exception whose message has a character beyond ASCII, the
    exception is reported, and then line 369 itself raises: the caller
    gets a UnicodeEncodeError for a text message ([str(exc)]) and a
    UnicodeDecodeError for a byte-string message (the formatting). *)
Theorem translate_unicode_failure_escapes :
  MicrosoftTerminologyService.translate Observe.sample_langs (fun code => code)
    Observe.en_fr Observe.unavailable "fr" "hello" (Observe.unit_of "en") Observe.nobody []
  = (Raise (Exc "UnicodeEncodeError"
              "'ascii' codec can't encode character u'\xe9' in position 1: ordinal not in range(128)"),
     [MicrosoftTerminologyService.ReportError
        (MachineTranslationError Observe.delai_depasse) Observe.failure_message;
      MicrosoftTerminologyService.DownloadTranslations "en" "fr" "hello";
      MicrosoftTerminologyService.IsSupported "en" "fr";
      MicrosoftTerminologyService.ConvertLanguage "en";
      MicrosoftTerminologyService.ConvertLanguage "fr"]) /\
  fst (MicrosoftTerminologyService.translate Observe.sample_langs (fun code => code)
         Observe.en_fr Observe.garbled "fr" "hello" (Observe.unit_of "en")
         Observe.nobody [])
  = Raise (Exc "UnicodeDecodeError"
             "'ascii' codec can't decode byte 0xe9 in position 1: ordinal not in range(128)").
Proof. split; vm_compute; reflexivity. Qed.

(** ** The pair ("en-US", "fr") against the supported set {"en", "fr"} *)

Section EnUsFr.
Import MicrosoftTerminologyService Observe.

Variable DEFAULT_LANGS : list string.
Variable base_convert_language : string -> string.
Variable soap_translations : string -> string -> string -> result (list Translation).

Lemma en_fr_members (code : string) : code ∈ en_fr -> code = "en" \/ code = "fr".
Proof. unfold en_fr. set_solver. Qed.

Lemma widen_en_US_long : (5 <= String.length (widen DEFAULT_LANGS "en-US"))%nat.
Proof.
  unfold widen. simpl.
  destruct (search_cases DEFAULT_LANGS "en-US") as [E|(lang & _ & Hs & E)]; rewrite E.
  - simpl. lia.
  - rewrite widened_length.
    pose proof (split_head_length "_" lang) as Hl. rewrite Hs in Hl. exact Hl.
Qed.

Lemma widen_en_US_unsupported :
  bool_decide (widen DEFAULT_LANGS "en-US" ∈ en_fr) = false.
Proof.
  apply bool_decide_eq_false. intros Hin.
  pose proof widen_en_US_long as Hlen.
  apply en_fr_members in Hin. destruct Hin as [E|E]; rewrite E in Hlen; simpl in Hlen; lia.
Qed.

(** C2, as the code has it: with the supported set {"en", "fr"} and
    the pair ("en-US", "fr"), whatever the locale table, the widening
    step does not turn "en-US" into a supported code (it keeps the code
    or takes a table entry of at least its length), the pair stays
    unsupported and [translate] returns the empty result without a
    download. *)
Theorem en_US_fr_stays_unsupported (text : string) (unit : Unit) (user : User) (w : World) :
  base_convert_language "en-US" = "en-US" ->
  base_convert_language "fr" = "fr" ->
  source_language_code unit = "en-US" ->
  bool_decide (widen DEFAULT_LANGS "en-US" ∈ en_fr) = false /\
  exists w', translate DEFAULT_LANGS base_convert_language en_fr soap_translations
               "fr" text unit user w = (Return [], w') /\
             downloads w' = downloads w.
Proof.
  intros Hen Hfr Hunit. split; [exact widen_en_US_unsupported|].
  unfold translate. destruct (String.eqb text "").
  { exists w. auto. }
  unfold convert_language, is_supported, emit, bind, ret. simpl.
  rewrite Hunit, Hen, Hfr.
  replace (bool_decide ("en-US" ∈ en_fr)) with false by (vm_compute; reflexivity).
  rewrite andb_false_r. simpl.
  destruct (String.eqb (widen DEFAULT_LANGS "en-US") (widen DEFAULT_LANGS "fr")).
  { eexists. split; [reflexivity|]. reflexivity. }
  rewrite widen_en_US_unsupported, andb_false_r. simpl.
  eexists. split; [reflexivity|]. reflexivity.
Qed.

End EnUsFr.

Lemma en_US_fr_stays_unsupported_witness :
  let run := MicrosoftTerminologyService.translate Observe.sample_langs (fun code => code)
               Observe.en_fr Observe.bonjour "fr" "hello" (Observe.unit_of "en-US")
               Observe.nobody [] in
  bool_decide (MicrosoftTerminologyService.widen Observe.sample_langs "en-US" ∈ Observe.en_fr)
    = false /\
  fst run = Return [] /\ Observe.downloads (snd run) = [].
Proof.
  intros run.
  destruct (en_US_fr_stays_unsupported Observe.sample_langs (fun code => code)
              Observe.bonjour "hello" (Observe.unit_of "en-US") Observe.nobody [])
    as (A & w' & B & C); try reflexivity.
  split; [exact A|]. subst run. rewrite B. split; [reflexivity|exact C].
Defined.

(** C2, as stated, fails: with a locale table holding "en_US" and
    "fr_FR", the widening step leaves "en-US" as it is, which is not a
    supported code, widens the supported "fr" to "fr-fr", and [translate]
    returns the empty result although the service has a translation. *)
Lemma en_US_fr_not_made_supported :
  MicrosoftTerminologyService.widen Observe.sample_langs "en-US" = "en-US" /\
  MicrosoftTerminologyService.widen Observe.sample_langs "fr" = "fr-fr" /\
  bool_decide ("en-US" ∈ Observe.en_fr) = false /\
  MicrosoftTerminologyService.translate Observe.sample_langs (fun code => code)
    Observe.en_fr Observe.bonjour "fr" "hello" (Observe.unit_of "en-US") Observe.nobody []
  = (Return [],
     [MicrosoftTerminologyService.IsSupported "en-US" "fr-fr";
      MicrosoftTerminologyService.IsSupported "en-US" "fr";
      MicrosoftTerminologyService.ConvertLanguage "en-US";
      MicrosoftTerminologyService.ConvertLanguage "fr"]).
Proof. repeat split; vm_compute; reflexivity. Qed.

(** ** The token cache of MicrosoftTranslation *)

Section TokenCache.
Import MicrosoftTranslation Wire.

Variable MT_MICROSOFT_ID MT_MICROSOFT_SECRET : string.
Variable timezone_now : nat -> Z.
Variable urlopen : list Request -> Request -> result Json.

Local Abbreviation access_token :=
  (access_token MT_MICROSOFT_ID MT_MICROSOFT_SECRET timezone_now urlopen).
Local Abbreviation is_token_expired := (is_token_expired timezone_now).
Local Abbreviation oauth_request := (oauth_request MT_MICROSOFT_ID MT_MICROSOFT_SECRET).
Local Abbreviation due := (due timezone_now).

Ltac run :=
  unfold MicrosoftTranslation.access_token, MicrosoftTranslation.is_token_expired,
    json_req_with, send, now, get_access_token, get_token_expiry,
    set_access_token, set_token_expiry, bind, ret, raise, lift_result; simpl.



(** The token is held and not due: no request, the token is returned. *)
Lemma access_token_cached (w : World) (token : string) (e : Z) :
  _access_token w = Some token -> _token_expiry w = Some e ->
  timezone_now (clock_reads w) < e ->
  exists w1, access_token w = (Return (Some token), w1) /\
             sent w1 = sent w /\ _access_token w1 = Some token /\
             _token_expiry w1 = Some e.
Proof.
  destruct w as [tok ex k snt]; simpl. intros -> -> Hlt. run.
  destruct (Z.leb_spec e (timezone_now k)); [lia|].
  simpl. eexists. split; [reflexivity|]. auto.
Qed.

(** When a refresh is due, the authentication request is sent and its
    answer decides. *)
Lemma access_token_due (w : World) :
  due w ->
  exists w0, sent w0 = oauth_request :: sent w /\
             _access_token w0 = _access_token w /\
             _token_expiry w0 = _token_expiry w /\
    match urlopen (sent w) oauth_request with
    | Raise exc => access_token w = (Raise exc, w0)
    | Return (JStr _) => exists exc, access_token w = (Raise exc, w0)
    | Return (JObject data) =>
        if bool_decide (is_Some (data !! "error")) then
          access_token w = (Raise (refusal data), w0)
        else
          match data !! "access_token" with
          | None => access_token w = (Raise (Exc "KeyError" "u'access_token'"), w0)
          | Some value =>
              exists w1, access_token w = (Return (to_token value), w1) /\
                sent w1 = sent w0 /\ _access_token w1 = to_token value /\
                clock_reads w1 = S (clock_reads w0) /\
                _token_expiry w1 = Some (timezone_now (clock_reads w0) + TOKEN_EXPIRY)
          end
    end.
Proof.
  destruct w as [tok ex k snt]. unfold Wire.due. simpl. intros Hdue.
  assert (Hguard : tok = None \/
            exists t e, tok = Some t /\ ex = Some e /\ e <= timezone_now k).
  { destruct Hdue as [->|(e & -> & He)]; [now left|].
    destruct tok as [t|]; [right; eauto|now left]. }
  clear Hdue. unfold refusal. run.
  destruct Hguard as [->|(t & e & -> & -> & He)]; simpl.
  - eexists {| _access_token := None; _token_expiry := ex;
               clock_reads := k; sent := oauth_request :: snt |}.
    simpl. repeat split.
    fold oauth_request.
    destruct (urlopen snt oauth_request) as [[s|data]|exc]; simpl.
    + destruct (PyStr.contains_str "error" s); eauto.
    + destruct (bool_decide (is_Some (data !! "error"))); simpl.
      * destruct (add_values _ _); reflexivity.
      * destruct (data !! "access_token"); simpl; eauto 10.
    + reflexivity.
  - destruct (Z.leb_spec e (timezone_now k)); [|lia]. simpl.
    eexists {| _access_token := Some t; _token_expiry := Some e;
               clock_reads := S k; sent := oauth_request :: snt |}.
    simpl. repeat split.
    fold oauth_request.
    destruct (urlopen snt oauth_request) as [[s|data]|exc]; simpl.
    + destruct (PyStr.contains_str "error" s); eauto.
    + destruct (bool_decide (is_Some (data !! "error"))); simpl.
      * destruct (add_values _ _); reflexivity.
      * destruct (data !! "access_token"); simpl; eauto 10.
    + reflexivity.
Qed.

(** Whatever the answer, a due call sends the authentication request. *)
Lemma access_token_due_sends (w : World) :
  due w -> sent (snd (access_token w)) = oauth_request :: sent w.
Proof.
  intros Hdue. destruct (access_token_due w Hdue) as (w0 & Hs & _ & _ & Hrun).
  destruct (urlopen (sent w) oauth_request) as [[s|d]|exc].
  - destruct Hrun as (exc & ->). exact Hs.
  - destruct (bool_decide (is_Some (d !! "error"))).
    + rewrite Hrun. exact Hs.
    + destruct (d !! "access_token").
      * destruct Hrun as (w3 & -> & Hs3 & _). simpl. congruence.
      * rewrite Hrun. exact Hs.
  - rewrite Hrun. exact Hs.
Qed.


(** C5: a credential installed by [access_token] at the instant T
    (the reading of the clock made for it) gets the expiry T plus the
    lease of nine minutes, and [is_token_expired] then answers true at
    every instant from T plus the lease on and false at every instant
    before it. *)
Theorem credential_lease (w w1 : World) (tok : option string) :
  access_token w = (Return tok, w1) ->
  sent w1 <> sent w ->
  exists k T,
    clock_reads w1 = S k /\ T = timezone_now k /\
    _access_token w1 = tok /\
    _token_expiry w1 = Some (T + TOKEN_EXPIRY) /\
    TOKEN_EXPIRY = 9 * 60 * 1000000 /\
    forall w2, _token_expiry w2 = _token_expiry w1 ->
      (T + TOKEN_EXPIRY <= timezone_now (clock_reads w2) ->
       fst (is_token_expired w2) = Return true) /\
      (timezone_now (clock_reads w2) < T + TOKEN_EXPIRY ->
       fst (is_token_expired w2) = Return false).
Proof.
  intros Hrun Hsent.
  assert (Hdue : due w).
  { destruct (_access_token w) as [t|] eqn:Et; [|now left].
    destruct (_token_expiry w) as [e|] eqn:Ee.
    - destruct (Z.le_gt_cases e (timezone_now (clock_reads w))) as [Hle|Hgt].
      + right. eauto.
      + destruct (access_token_cached w t e Et Ee) as (w' & Hc & Hs & _); [lia|].
        rewrite Hc in Hrun. inversion Hrun; subst. contradiction.
    - exfalso. clear Hsent. revert Hrun. destruct w as [tok0 ex k snt].
      simpl in Et, Ee. subst. run. discriminate. }
  destruct (access_token_due w Hdue) as (w0 & Hs & Ht & He & Hcase).
  destruct (urlopen (sent w) oauth_request) as [[s|d]|exc].
  - destruct Hcase as (exc & Hc). rewrite Hc in Hrun. discriminate.
  - destruct (bool_decide (is_Some (d !! "error"))).
    + rewrite Hcase in Hrun. discriminate.
    + destruct (d !! "access_token") as [value|].
      * destruct Hcase as (w1' & Hc & Hs1 & Ht1 & Hk1 & He1).
        rewrite Hc in Hrun. inversion Hrun; subst.
        exists (clock_reads w0), (timezone_now (clock_reads w0)).
        split; [assumption|]. split; [reflexivity|]. split; [assumption|].
        split; [assumption|]. split; [reflexivity|].
        intros w2 Hw2. split.
        -- intros Hle. destruct w2 as [t2 e2 k2 s2]. simpl in *.
           rewrite He1 in Hw2. subst e2. run.
           destruct (Z.leb_spec (timezone_now (clock_reads w0) + TOKEN_EXPIRY)
                       (timezone_now k2)); [reflexivity|lia].
        -- intros Hlt. destruct w2 as [t2 e2 k2 s2]. simpl in *.
           rewrite He1 in Hw2. subst e2. run.
           destruct (Z.leb_spec (timezone_now (clock_reads w0) + TOKEN_EXPIRY)
                       (timezone_now k2)); [lia|reflexivity].
      * rewrite Hcase in Hrun. discriminate.
  - rewrite Hcase in Hrun. discriminate.
Qed.

End TokenCache.


Lemma credential_lease_witness :
  let run := MicrosoftTranslation.access_token "id" "secret" Wire.ticking Wire.granting
               MicrosoftTranslation.unset in
  fst run = Return (Some "t0k3n") /\
  MicrosoftTranslation.sent (snd run) <> [] /\
  MicrosoftTranslation._token_expiry (snd run) = Some (0 + 540000000) /\
  forall w2,
    MicrosoftTranslation._token_expiry w2 = MicrosoftTranslation._token_expiry (snd run) ->
    (540000000 <= Wire.ticking (MicrosoftTranslation.clock_reads w2) ->
     fst (MicrosoftTranslation.is_token_expired Wire.ticking w2) = Return true) /\
    (Wire.ticking (MicrosoftTranslation.clock_reads w2) < 540000000 ->
     fst (MicrosoftTranslation.is_token_expired Wire.ticking w2) = Return false).
Proof.
  intros run.
  assert (Hr : fst run = Return (Some "t0k3n")) by (vm_compute; reflexivity).
  assert (Hs : MicrosoftTranslation.sent (snd run) <> []) by (vm_compute; discriminate).
  split; [exact Hr|]. split; [exact Hs|].
  destruct (credential_lease "id" "secret" Wire.ticking Wire.granting
              MicrosoftTranslation.unset (snd run) (Some "t0k3n"))
    as (k & T & Hk & HT & _ & He & _ & Hexp).
  - rewrite <- Hr. apply surjective_pairing.
  - exact Hs.
  - assert (k = 0%nat) by (vm_compute in Hk; congruence). subst k T.
    split; [exact He|]. exact Hexp.
Defined.

(** ** download_translations of MicrosoftTranslation *)

Section Download.
Import MicrosoftTranslation Wire.

Variable MT_MICROSOFT_ID MT_MICROSOFT_SECRET : string.
Variable timezone_now : nat -> Z.
Variable urlopen : list Request -> Request -> result Json.

Local Abbreviation access_token :=
  (access_token MT_MICROSOFT_ID MT_MICROSOFT_SECRET timezone_now urlopen).
Local Abbreviation download_translations :=
  (download_translations MT_MICROSOFT_ID MT_MICROSOFT_SECRET timezone_now urlopen).

Lemma translate_args_text (source language text : string) :
  translate_args source language text !! "text" = Some (PyStr.slice_to 5000 text).
Proof. unfold translate_args. apply lookup_insert_eq. Qed.

(** The request goes out once the token is there, and the answer of
    the remote end is all that decides between return and raise. *)
Lemma download_translations_run (source language text : string)
    (unit : Unit) (user : User) (w : World) :
  match access_token w with
  | (Raise exc, w0) => download_translations source language text unit user w = (Raise exc, w0)
  | (Return token, w0) =>
      let req := translate_request token source language text in
      exists w1, sent w1 = req :: sent w0 /\
                 _access_token w1 = _access_token w0 /\
                 _token_expiry w1 = _token_expiry w0 /\
        download_translations source language text unit user w =
          (match urlopen (sent w0) req with
           | Return response => Return [(response, 100, name, text)]
           | Raise exc => Raise exc
           end, w1)
  end.
Proof.
  unfold MicrosoftTranslation.download_translations, json_req, json_req_with,
    authenticate, bind, ret, send.
  destruct (access_token w) as [[token|exc] w0]; [|reflexivity].
  simpl. fold (translate_request token source language text).
  exists {| _access_token := _access_token w0; _token_expiry := _token_expiry w0;
            clock_reads := clock_reads w0;
            sent := translate_request token source language text :: sent w0 |}.
  split; [reflexivity|]. split; [reflexivity|]. split; [reflexivity|].
  destruct (urlopen (sent w0) (translate_request token source language text));
    reflexivity.
Qed.

(** C6: for a text of more than 5000 characters, the text that
    [download_translations] puts in the request it sends is the first
    5000 characters of the input; cutting the text raises nothing: the
    call raises only what the remote end raises and returns whenever
    the remote end answers. *)
Theorem long_text_sent_truncated (source language text : string)
    (unit : Unit) (user : User) (w w0 : World) (token : option string) :
  (5000 < String.length text)%nat ->
  access_token w = (Return token, w0) ->
  exists req sent_text r w1,
    download_translations source language text unit user w = (r, w1) /\
    sent w1 = req :: sent w0 /\
    url req = TRANSLATE_URL /\
    params req !! "text" = Some sent_text /\
    String.length sent_text = 5000%nat /\
    String.prefix sent_text text = true /\
    (forall exc, r = Raise exc -> urlopen (sent w0) req = Raise exc) /\
    (forall response, urlopen (sent w0) req = Return response ->
                      exists candidates, r = Return candidates).
Proof.
  intros Hlen Htok.
  pose proof (download_translations_run source language text unit user w) as Hrun.
  rewrite Htok in Hrun. destruct Hrun as (w1 & Hs & _ & _ & Hrun).
  exists (translate_request token source language text), (PyStr.slice_to 5000 text).
  eexists. exists w1. split; [exact Hrun|]. split; [exact Hs|].
  split; [reflexivity|]. split; [apply translate_args_text|].
  split; [rewrite slice_to_length; lia|]. split; [apply slice_to_prefix|].
  split.
  - intros exc. destruct (urlopen (sent w0) _); [discriminate|congruence].
  - intros response ->. eauto.
Qed.

(** C10: for every text, [download_translations] returns, once the
    token is there and the remote end has answered, exactly one
    candidate, with quality 100 and the whole input text as its source,
    while the request it sent carried the first 5000 characters only;
    and it returns nothing else. *)
Theorem one_candidate_with_full_text (source language text : string)
    (unit : Unit) (user : User) (w : World) :
  (forall token w0 response,
     access_token w = (Return token, w0) ->
     urlopen (sent w0) (translate_request token source language text) = Return response ->
     exists w1,
       download_translations source language text unit user w =
         (Return [(response, 100, name, text)], w1) /\
       sent w1 = translate_request token source language text :: sent w0 /\
       params (translate_request token source language text) !! "text" =
         Some (PyStr.slice_to 5000 text)) /\
  (forall candidates w1,
     download_translations source language text unit user w = (Return candidates, w1) ->
     exists response, candidates = [(response, 100, name, text)]).
Proof.
  pose proof (download_translations_run source language text unit user w) as Hrun.
  split.
  - intros token w0 response Htok Hresp. rewrite Htok in Hrun.
    destruct Hrun as (w1 & Hs & _ & _ & Hrun). rewrite Hresp in Hrun.
    exists w1. split; [exact Hrun|]. split; [exact Hs|]. apply translate_args_text.
  - intros candidates w1 Hret.
    destruct (access_token w) as [[token|exc] w0].
    + destruct Hrun as (w1' & _ & _ & _ & Hrun). rewrite Hrun in Hret.
      destruct (urlopen (sent w0) (translate_request token source language text))
        as [response|exc]; [|discriminate].
      inversion Hret; subst. eauto.
    + rewrite Hrun in Hret. discriminate.
Qed.

End Download.

Lemma long_text_sent_truncated_witness :
  let run := MicrosoftTranslation.download_translations "id" "secret" Wire.ticking
               Wire.granting "en" "fr" Wire.long_text (Observe.unit_of "en") Observe.nobody
               MicrosoftTranslation.unset in
  (5000 < String.length Wire.long_text)%nat /\
  exists req sent_text,
    head (MicrosoftTranslation.sent (snd run)) = Some req /\
    MicrosoftTranslation.params req !! "text" = Some sent_text /\
    String.length sent_text = 5000%nat /\
    String.prefix sent_text Wire.long_text = true /\
    exists candidates, fst run = Return candidates.
Proof.
  intros run.
  assert (Hlen : (5000 < String.length Wire.long_text)%nat).
  { apply Nat.ltb_lt. vm_compute. reflexivity. }
  split; [exact Hlen|].
  destruct (long_text_sent_truncated "id" "secret" Wire.ticking Wire.granting
              "en" "fr" Wire.long_text (Observe.unit_of "en") Observe.nobody
              MicrosoftTranslation.unset
              (snd (MicrosoftTranslation.access_token "id" "secret" Wire.ticking
                      Wire.granting MicrosoftTranslation.unset))
              (Some "t0k3n") Hlen)
    as (req & sent_text & r & w1 & Hrun & Hs & Hurl & Hp & Hl & Hpre & _ & Hok).
  - vm_compute. reflexivity.
  - exists req, sent_text. subst run. rewrite Hrun. simpl. rewrite Hs.
    split; [reflexivity|]. split; [exact Hp|]. split; [exact Hl|].
    split; [exact Hpre|]. apply (Hok (MicrosoftTranslation.JStr "bonjour")).
    unfold Wire.granting. rewrite Hurl. reflexivity.
Defined.

Lemma one_candidate_with_full_text_witness :
  let run := MicrosoftTranslation.download_translations "id" "secret" Wire.ticking
               Wire.granting "en" "fr" Wire.long_text (Observe.unit_of "en") Observe.nobody
               MicrosoftTranslation.unset in
  fst run = Return [(MicrosoftTranslation.JStr "bonjour", 100,
                     MicrosoftTranslation.name, Wire.long_text)] /\
  exists req,
    head (MicrosoftTranslation.sent (snd run)) = Some req /\
    MicrosoftTranslation.params req !! "text" = Some (Wire.times "a" 5000) /\
    String.length Wire.long_text = S 5000.
Proof.
  intros run.
  destruct (one_candidate_with_full_text "id" "secret" Wire.ticking Wire.granting
              "en" "fr" Wire.long_text (Observe.unit_of "en") Observe.nobody
              MicrosoftTranslation.unset) as [Hrun _].
  destruct (Hrun (Some "t0k3n")
              (snd (MicrosoftTranslation.access_token "id" "secret" Wire.ticking
                      Wire.granting MicrosoftTranslation.unset))
              (MicrosoftTranslation.JStr "bonjour"))
    as (w1 & Hd & Hs & Hp).
  - vm_compute. reflexivity.
  - reflexivity.
  - subst run. rewrite Hd. simpl. split; [reflexivity|].
    eexists. rewrite Hs. split; [reflexivity|]. rewrite Hp.
    split; vm_compute; reflexivity.
Defined.


(** ** Two callers of access_token on one instance *)

Section TwoCallers.
Import MicrosoftTranslation Wire Concurrent.

Variable MT_MICROSOFT_ID MT_MICROSOFT_SECRET : string.
Variable timezone_now : nat -> Z.
Variable urlopen : list Request -> Request -> result Json.

Local Abbreviation access_token :=
  (access_token MT_MICROSOFT_ID MT_MICROSOFT_SECRET timezone_now urlopen).
Local Abbreviation oauth_request := (oauth_request MT_MICROSOFT_ID MT_MICROSOFT_SECRET).
Local Abbreviation phases :=
  (phases MT_MICROSOFT_ID MT_MICROSOFT_SECRET timezone_now urlopen).
Local Abbreviation step :=
  (step MT_MICROSOFT_ID MT_MICROSOFT_SECRET timezone_now urlopen).
Local Abbreviation run :=
  (run MT_MICROSOFT_ID MT_MICROSOFT_SECRET timezone_now urlopen).

Ltac run_phases :=
  unfold Concurrent.step, advance, check, request, install_token, install_expiry,
    MicrosoftTranslation.is_token_expired, json_req_with, send, now,
    get_access_token, get_token_expiry, set_access_token, set_token_expiry,
    bind, ret, raise, lift_result; simpl.

Ltac split_cases :=
  repeat (match goal with
          | |- context [match ?x with _ => _ end] => destruct x; simpl
          end);
  try reflexivity.

(** The phases in a row are the property. *)
Lemma phases_access_token (w : World) : phases w = access_token w.
Proof.
  unfold Concurrent.phases, MicrosoftTranslation.access_token.
  destruct w as [tok ex k snt]. run_phases.
  destruct tok as [t|]; simpl.
  - destruct ex as [e|]; simpl; [|reflexivity].
    destruct (e <=? timezone_now k); simpl; [|reflexivity].
    destruct (urlopen snt _) as [[s|d]|exc]; simpl; [| |reflexivity].
    + destruct (PyStr.contains_str "error" s); reflexivity.
    + destruct (bool_decide (is_Some (d !! "error"))); simpl.
      * destruct (add_values _ _); reflexivity.
      * destruct (d !! "access_token"); reflexivity.
  - destruct (urlopen snt _) as [[s|d]|exc]; simpl; [| |reflexivity].
    + destruct (PyStr.contains_str "error" s); reflexivity.
    + destruct (bool_decide (is_Some (d !! "error"))); simpl.
      * destruct (add_values _ _); reflexivity.
      * destruct (d !! "access_token"); reflexivity.
Qed.

(** A caller that moves alone goes through [access_token]. *)
Lemma lone_caller_runs_access_token (b : Caller) (w : World) :
  run [true; true; true; true; true] Checking b w =
    (Finished (fst (access_token w)), b, snd (access_token w)).
Proof.
  rewrite <- phases_access_token.
  unfold Concurrent.phases, Concurrent.run.
  destruct w as [tok ex k snt]. run_phases.
  destruct tok as [t|]; simpl.
  - destruct ex as [e|]; simpl; [|reflexivity].
    destruct (e <=? timezone_now k); simpl; [|reflexivity].
    destruct (urlopen snt _) as [[s|d]|exc]; simpl; [| |reflexivity].
    + destruct (PyStr.contains_str "error" s); reflexivity.
    + destruct (bool_decide (is_Some (d !! "error"))); simpl.
      * destruct (add_values _ _); reflexivity.
      * destruct (d !! "access_token"); reflexivity.
  - destruct (urlopen snt _) as [[s|d]|exc]; simpl; [| |reflexivity].
    + destruct (PyStr.contains_str "error" s); reflexivity.
    + destruct (bool_decide (is_Some (d !! "error"))); simpl.
      * destruct (add_values _ _); reflexivity.
      * destruct (d !! "access_token"); reflexivity.
Qed.

(** With no token held and a granted token, the first four phases of a
    caller install the token and its expiry. *)
Lemma first_caller_installs (w : World) (data : gmap string string) (token : string)
    (b : Caller) (rest : list bool) :
  _access_token w = None ->
  urlopen (sent w) oauth_request = Return (JObj data) ->
  data !! "error" = None ->
  data !! "access_token" = Some token ->
  run ([true; true; true; true] ++ rest) Checking b w =
    run rest Returning b
      {| _access_token := Some token;
         _token_expiry := Some (timezone_now (clock_reads w) + TOKEN_EXPIRY);
         clock_reads := S (clock_reads w);
         sent := oauth_request :: sent w |}.
Proof.
  destruct w as [tok ex k snt]; simpl. intros -> Hresp Herr Htok.
  unfold JObj in Hresp.
  simpl. run_phases. fold oauth_request. rewrite Hresp. simpl.
  rewrite bool_decide_eq_false_2
    by (rewrite lookup_fmap, Herr; intros [x Hx]; discriminate).
  rewrite lookup_fmap, Htok. simpl.
  reflexivity.
Qed.

(** Once the token is held with its expiry, a caller that still has
    its check to make before the expiry, or only its return, ends with
    the token, and nothing more is sent. *)
Lemma settled_callers (token : string) (e : Z) (rest : list bool) :
  forall (a b : Caller) (w : World),
  _access_token w = Some token -> _token_expiry w = Some e ->
  (a = Returning /\ (1 <= moves true rest)%nat) \/
  a = Finished (Return (Some token)) ->
  (b = Checking /\ timezone_now (clock_reads w) < e /\ (2 <= moves false rest)%nat) \/
  (b = Returning /\ (1 <= moves false rest)%nat) \/
  b = Finished (Return (Some token)) ->
  exists w', run rest a b w =
               (Finished (Return (Some token)), Finished (Return (Some token)), w') /\
             sent w' = sent w.
Proof.
  unfold moves.
  induction rest as [|who rest IH]; intros a b w Ht He Ha Hb; simpl in Ha, Hb.
  - destruct Ha as [[_ Hm]| ->]; [simpl in Hm; lia|].
    destruct Hb as [(_ & _ & Hm)|[[_ Hm]| ->]]; try (simpl in Hm; lia).
    exists w. split; reflexivity.
  - destruct w as [tok ex k snt]. simpl in Ht, He. subst tok ex.
    destruct who; simpl.
    + assert (Hb' : (b = Checking /\ timezone_now k < e /\
                     (2 <= length (List.filter (Bool.eqb false) rest))%nat) \/
                    (b = Returning /\
                     (1 <= length (List.filter (Bool.eqb false) rest))%nat) \/
                    b = Finished (Return (Some token))) by exact Hb.
      destruct Ha as [[-> Hm]| ->]; run_phases;
        (eapply IH; [reflexivity|reflexivity|now right|exact Hb']).
    + assert (Ha' : (a = Returning /\
                     (1 <= length (List.filter (Bool.eqb true) rest))%nat) \/
                    a = Finished (Return (Some token))) by exact Ha.
      destruct Hb as [(-> & Hlt & Hm)|[[-> Hm]| ->]]; run_phases.
      * simpl in Hlt. destruct (Z.leb_spec e (timezone_now k)); [lia|]. simpl.
        eapply IH; [reflexivity|reflexivity|exact Ha'|].
        right. left. split; [reflexivity|]. simpl in Hm. lia.
      * eapply IH; [reflexivity|reflexivity|exact Ha'|]. now right; right.
      * eapply IH; [reflexivity|reflexivity|exact Ha'|]. now right; right.
Qed.

(** C9, for callers one after the other: with no token held and an
    authentication answer that grants a token, when the second caller
    makes its first move only after the first caller has assigned the
    token and its expiry, and the clock then reads an instant before
    that expiry, one authentication request is sent and both callers
    return the same token.  The schedule is otherwise free: each caller
    is given the moves it still needs. *)
Theorem serial_callers_authenticate_once (w : World) (data : gmap string string)
    (token : string) (rest : list bool) :
  _access_token w = None ->
  urlopen (sent w) oauth_request = Return (JObj data) ->
  data !! "error" = None ->
  data !! "access_token" = Some token ->
  timezone_now (S (clock_reads w)) < timezone_now (clock_reads w) + TOKEN_EXPIRY ->
  (1 <= moves true rest)%nat -> (2 <= moves false rest)%nat ->
  exists w',
    run ([true; true; true; true] ++ rest) Checking Checking w =
      (Finished (Return (Some token)), Finished (Return (Some token)), w') /\
    sent w' = oauth_request :: sent w.
Proof.
  intros Hnone Hresp Herr Htok Hfresh Ha Hb.
  rewrite (first_caller_installs w data token Checking rest Hnone Hresp Herr Htok).
  apply (settled_callers token (timezone_now (clock_reads w) + TOKEN_EXPIRY) rest);
    [reflexivity|reflexivity|left; split; [reflexivity|exact Ha]|].
  left. split; [reflexivity|]. split; [exact Hfresh|exact Hb].
Qed.

End TwoCallers.

(** C9, as worded: nothing keeps the second caller of [access_token]
    from moving between two phases of the first.  When both make their
    check before either has assigned a token, each sends the
    authentication request, and with a remote end that issues a new
    token for each request they return different tokens.  When the
    second caller makes its check between the two assignments of the
    first (lines 92 and 93), it finds a token without an expiry and its
    comparison raises. *)
Lemma interleaved_callers_authenticate_twice :
  (exists w',
     Concurrent.run "id" "secret" Wire.ticking Concurrent.issuing
       [true; false; true; true; true; true; false; false; false; false]
       Concurrent.Checking Concurrent.Checking MicrosoftTranslation.unset =
     (Concurrent.Finished (Return (Some "token-0")),
      Concurrent.Finished (Return (Some "token-1")), w') /\
     MicrosoftTranslation.sent w' =
       [Wire.oauth_request "id" "secret"; Wire.oauth_request "id" "secret"] /\
     MicrosoftTranslation._access_token w' = Some "token-1") /\
  (exists w',
     Concurrent.run "id" "secret" Wire.ticking Concurrent.issuing
       [true; true; true; false]
       Concurrent.Checking Concurrent.Checking MicrosoftTranslation.unset =
     (Concurrent.InstallingExpiry,
      Concurrent.Finished
        (Raise (Exc "TypeError" "can't compare datetime.datetime to NoneType")), w') /\
     MicrosoftTranslation._access_token w' = Some "token-0" /\
     MicrosoftTranslation._token_expiry w' = None).
Proof.
  split; eexists; (split; [vm_compute; reflexivity|]); split; reflexivity.
Qed.

Lemma serial_callers_authenticate_once_witness :
  exists w',
    Concurrent.run "id" "secret" Wire.ticking Wire.granting
      [true; true; true; true; false; true; false]
      Concurrent.Checking Concurrent.Checking MicrosoftTranslation.unset =
    (Concurrent.Finished (Return (Some "t0k3n")),
     Concurrent.Finished (Return (Some "t0k3n")), w') /\
    MicrosoftTranslation.sent w' = [Wire.oauth_request "id" "secret"].
Proof.
  refine (serial_callers_authenticate_once "id" "secret" Wire.ticking Wire.granting
            MicrosoftTranslation.unset (<["access_token" := "t0k3n"]> ∅) "t0k3n"
            [false; true; false] eq_refl eq_refl eq_refl eq_refl _ _ _).
  - vm_compute. reflexivity.
  - unfold Concurrent.moves. simpl. lia.
  - unfold Concurrent.moves. simpl. lia.
Defined.

(** ** More on the language codecs *)

Section CodecFacts.

Lemma lower_char_idem (c : ascii) : PyStr.lower_char (PyStr.lower_char c) = PyStr.lower_char c.
Proof. destruct c as [[] [] [] [] [] [] [] []]; reflexivity. Qed.

Lemma lower_char_underscore (c : ascii) :
  Ascii.eqb (PyStr.lower_char c) "_" = Ascii.eqb c "_".
Proof. destruct c as [[] [] [] [] [] [] [] []]; reflexivity. Qed.

Lemma lower_char_hyphen (c : ascii) :
  Ascii.eqb (PyStr.lower_char c) "-" = Ascii.eqb c "-".
Proof. destruct c as [[] [] [] [] [] [] [] []]; reflexivity. Qed.

Lemma lower_idem (s : string) : PyStr.lower (PyStr.lower s) = PyStr.lower s.
Proof. induction s as [|x rest IH]; simpl; [reflexivity|]. now rewrite lower_char_idem, IH. Qed.

Lemma replace_lower (s : string) :
  PyStr.replace "_" "-" (PyStr.lower s) = PyStr.lower (PyStr.replace "_" "-" s).
Proof.
  induction s as [|x rest IH]; simpl; [reflexivity|].
  rewrite IH, lower_char_underscore. now destruct (Ascii.eqb x "_").
Qed.

Lemma replace_idem (s : string) :
  PyStr.replace "_" "-" (PyStr.replace "_" "-" s) = PyStr.replace "_" "-" s.
Proof.
  induction s as [|x rest IH]; simpl; [reflexivity|].
  rewrite IH. destruct (Ascii.eqb x "_") eqn:E; [reflexivity|now rewrite E].
Qed.

Lemma replace_no_underscore (s : string) :
  PyStr.contains "_" (PyStr.replace "_" "-" s) = false.
Proof.
  induction s as [|x rest IH]; simpl; [reflexivity|].
  rewrite IH. destruct (Ascii.eqb x "_") eqn:E; [reflexivity|now rewrite E].
Qed.

Lemma replace_absent (s : string) :
  PyStr.contains "_" s = false -> PyStr.replace "_" "-" s = s.
Proof.
  induction s as [|x rest IH]; simpl; [reflexivity|].
  destruct (Ascii.eqb x "_"); [discriminate|]. intros H. now rewrite IH.
Qed.

Lemma lower_contains_underscore (s : string) :
  PyStr.contains "_" (PyStr.lower s) = PyStr.contains "_" s.
Proof.
  induction s as [|x rest IH]; simpl; [reflexivity|].
  now rewrite lower_char_underscore, IH.
Qed.

Lemma lower_contains_hyphen (s : string) :
  PyStr.contains "-" (PyStr.lower s) = PyStr.contains "-" s.
Proof.
  induction s as [|x rest IH]; simpl; [reflexivity|].
  now rewrite lower_char_hyphen, IH.
Qed.

Lemma split_head_contains (c sep : ascii) (s : string) :
  PyStr.contains c s = false -> PyStr.contains c (PyStr.split_head sep s) = false.
Proof.
  induction s as [|x rest IH]; simpl; [reflexivity|].
  destruct (Ascii.eqb x c) eqn:E; [discriminate|]. intros H.
  destruct (Ascii.eqb x sep); simpl; [reflexivity|]. rewrite E. now apply IH.
Qed.

Lemma split_head_absent (sep : ascii) (s : string) :
  PyStr.contains sep s = false -> PyStr.split_head sep s = s.
Proof.
  induction s as [|x rest IH]; simpl; [reflexivity|].
  destruct (Ascii.eqb x sep); [discriminate|]. intros H. now rewrite IH.
Qed.

Lemma split_head_prefix (sep : ascii) (s : string) :
  String.prefix (PyStr.split_head sep s) s = true.
Proof.
  induction s as [|x rest IH]; simpl; [reflexivity|].
  destruct (Ascii.eqb x sep); simpl; [reflexivity|].
  destruct (ascii_dec x x) as [_|N]; [exact IH|now destruct N].
Qed.

(** The entries of the table of the Cognitive codec. *)
Lemma converter_entries (key code : string) :
  MicrosoftCognitiveCodec.LANGUAGE_CONVERTER !! key = Some code ->
  In (key, code)
     [ ("zh-hant", "zh-CHT"); ("zh-hans", "zh-CHS"); ("zh-tw", "zh-CHT");
       ("zh-cn", "zh-CHS"); ("tlh-qaak", "tlh-Qaak"); ("nb", "no");
       ("bs-latn", "bs-Latn"); ("sr-latn", "sr-Latn"); ("sr-cyrl", "sr-Cyrl") ].
Proof.
  intros H. apply elem_of_list_to_map_2 in H. now apply list_elem_of_In.
Qed.

(** X1: Both codecs read a code without regard to case and take the
    underscore for the hyphen. *)
Theorem convert_language_normalises (language : string) :
  MicrosoftTranslationCodec.convert_language (PyStr.lower language) =
    MicrosoftTranslationCodec.convert_language language /\
  MicrosoftTranslationCodec.convert_language (PyStr.replace "_" "-" language) =
    MicrosoftTranslationCodec.convert_language language /\
  MicrosoftCognitiveCodec.convert_language (PyStr.lower language) =
    MicrosoftCognitiveCodec.convert_language language /\
  MicrosoftCognitiveCodec.convert_language (PyStr.replace "_" "-" language) =
    MicrosoftCognitiveCodec.convert_language language.
Proof.
  unfold MicrosoftTranslationCodec.convert_language,
    MicrosoftCognitiveCodec.convert_language.
  rewrite replace_lower, lower_idem, replace_idem. auto.
Qed.

(** X2: No code that comes out of either codec has an underscore. *)
Theorem convert_language_no_underscore (language : string) :
  PyStr.contains "_" (MicrosoftTranslationCodec.convert_language language) = false /\
  PyStr.contains "_" (MicrosoftCognitiveCodec.convert_language language) = false.
Proof.
  assert (Hn : PyStr.contains "_" (PyStr.lower (PyStr.replace "_" "-" language)) = false).
  { now rewrite lower_contains_underscore, replace_no_underscore. }
  split.
  - unfold MicrosoftTranslationCodec.convert_language.
    repeat match goal with |- context [String.eqb ?a ?b] =>
      destruct (String.eqb a b); [reflexivity|] end.
    exact Hn.
  - unfold MicrosoftCognitiveCodec.convert_language.
    destruct (MicrosoftCognitiveCodec.LANGUAGE_CONVERTER !! _) as [code|] eqn:E.
    + apply converter_entries in E. simpl in E.
      repeat (destruct E as [E|E]; [inversion E; reflexivity|]). destruct E.
    + now apply split_head_contains.
Qed.

(** X3: On a code without separator the two codecs agree. *)
Theorem codecs_agree_without_separator (language : string) :
  PyStr.contains "-" language = false ->
  PyStr.contains "_" language = false ->
  MicrosoftCognitiveCodec.convert_language language =
    MicrosoftTranslationCodec.convert_language language.
Proof.
  intros Hh Hu.
  unfold MicrosoftTranslationCodec.convert_language,
    MicrosoftCognitiveCodec.convert_language.
  rewrite (replace_absent language Hu).
  assert (Hn : PyStr.contains "-" (PyStr.lower language) = false).
  { now rewrite lower_contains_hyphen. }
  set (code := PyStr.lower language) in *.
  destruct (MicrosoftCognitiveCodec.LANGUAGE_CONVERTER !! code) as [v|] eqn:E.
  - apply converter_entries in E. simpl in E.
    repeat (destruct E as [E|E];
            [inversion E as [[Hk Hv]]; rewrite <- Hk in Hn; try discriminate Hn;
             reflexivity|]).
    destruct E.
  - rewrite (split_head_absent "-" code Hn).
    repeat match goal with |- context [String.eqb ?a ?b] =>
      destruct (String.eqb_spec a b) as [Heq|_];
        [rewrite Heq in *; (discriminate Hn || (vm_compute in E; discriminate E))|] end.
    reflexivity.
Qed.

(** X4: When the table of the Cognitive codec has no entry for a code, the
    region is cut off: what comes out has no separator left and is the
    beginning of the lower-cased code. *)
Theorem cognitive_strips_region (language : string) :
  let code := PyStr.lower (PyStr.replace "_" "-" language) in
  MicrosoftCognitiveCodec.LANGUAGE_CONVERTER !! code = None ->
  PyStr.contains "-" (MicrosoftCognitiveCodec.convert_language language) = false /\
  PyStr.contains "_" (MicrosoftCognitiveCodec.convert_language language) = false /\
  String.prefix (MicrosoftCognitiveCodec.convert_language language) code = true.
Proof.
  intros code E. unfold MicrosoftCognitiveCodec.convert_language. fold code. rewrite E.
  split; [apply split_head_no_sep|]. split; [|apply split_head_prefix].
  apply split_head_contains. unfold code.
  now rewrite lower_contains_underscore, replace_no_underscore.
Qed.

End CodecFacts.

Lemma codecs_agree_without_separator_witness :
  MicrosoftCognitiveCodec.convert_language "NB" =
    MicrosoftTranslationCodec.convert_language "NB" /\
  MicrosoftTranslationCodec.convert_language "NB" = "no".
Proof.
  split; [apply codecs_agree_without_separator; reflexivity|reflexivity].
Defined.

Lemma cognitive_strips_region_witness :
  MicrosoftCognitiveCodec.convert_language "en_GB" = "en" /\
  String.prefix (MicrosoftCognitiveCodec.convert_language "en_GB") "en-gb" = true.
Proof.
  destruct (cognitive_strips_region "en_GB") as (_ & _ & H).
  - vm_compute. reflexivity.
  - split; [vm_compute; reflexivity|exact H].
Defined.

(** ** More on the token cache of MicrosoftTranslation *)

Section TokenCacheFacts.
Import MicrosoftTranslation Wire MicrosoftLanguages.

Variable MT_MICROSOFT_ID MT_MICROSOFT_SECRET : string.
Variable timezone_now : nat -> Z.
Variable urlopen : list Request -> Request -> result Json.

Local Abbreviation access_token :=
  (access_token MT_MICROSOFT_ID MT_MICROSOFT_SECRET timezone_now urlopen).
Local Abbreviation oauth_request := (oauth_request MT_MICROSOFT_ID MT_MICROSOFT_SECRET).
Local Abbreviation due := (due timezone_now).

Ltac run_token :=
  unfold MicrosoftTranslation.access_token, MicrosoftTranslation.is_token_expired,
    json_req_with, send, now, get_access_token, get_token_expiry,
    set_access_token, set_token_expiry, bind, ret, raise, lift_result; simpl.

(** A token without expiry: the comparison fails before any request. *)
Lemma access_token_broken (w : World) (token : string) :
  _access_token w = Some token -> _token_expiry w = None ->
  exists exc w1, access_token w = (Raise exc, w1) /\ sent w1 = sent w /\
                 _access_token w1 = _access_token w /\ _token_expiry w1 = _token_expiry w.
Proof.
  destruct w as [tok ex k snt]; simpl. intros -> ->. run_token.
  do 2 eexists. split; [reflexivity|]. auto.
Qed.

Lemma cache_cases (w : World) :
  due w \/
  (exists token e, _access_token w = Some token /\ _token_expiry w = Some e /\
                   timezone_now (clock_reads w) < e) \/
  (exists token, _access_token w = Some token /\ _token_expiry w = None).
Proof.
  unfold Wire.due.
  destruct (_access_token w) as [token|]; [|left; left; reflexivity].
  destruct (_token_expiry w) as [e|]; [|right; right; eauto].
  destruct (Z.le_gt_cases e (timezone_now (clock_reads w))) as [Hle|Hgt].
  - left. right. eauto.
  - right. left. exists token, e. repeat split; lia.
Qed.

(** The outcomes of a call, with the world it leaves. *)
Lemma access_token_outcomes (w : World) :
  exists r w1, access_token w = (r, w1) /\
    (sent w1 = sent w \/ sent w1 = oauth_request :: sent w) /\
    match r with
    | Raise _ => _access_token w1 = _access_token w /\ _token_expiry w1 = _token_expiry w
    | Return tok => exists e, _access_token w1 = tok /\ _token_expiry w1 = Some e
    end /\
    (token_has_expiry w -> forall exc, r = Raise exc -> sent w1 = oauth_request :: sent w).
Proof.
  destruct (cache_cases w) as [Hdue|[(token & e & Ht & He & Hlt)|(token & Ht & He)]].
  - destruct (access_token_due MT_MICROSOFT_ID MT_MICROSOFT_SECRET timezone_now urlopen
                w Hdue) as (w0 & Hs & Ht & He & Hcase).
    destruct (urlopen (sent w) oauth_request) as [[s|d]|exc].
    + destruct Hcase as (exc & ->). do 2 eexists. split; [reflexivity|]. auto.
    + destruct (bool_decide (is_Some (d !! "error"))).
      * rewrite Hcase. do 2 eexists. split; [reflexivity|]. auto.
      * destruct (d !! "access_token") as [value|].
        -- destruct Hcase as (w1 & -> & Hs1 & Ht1 & _ & He1).
           do 2 eexists. split; [reflexivity|]. split; [right; congruence|].
           split; [eauto|]. discriminate.
        -- rewrite Hcase. do 2 eexists. split; [reflexivity|]. auto.
    + rewrite Hcase. do 2 eexists. split; [reflexivity|]. auto.
  - destruct (access_token_cached MT_MICROSOFT_ID MT_MICROSOFT_SECRET timezone_now urlopen
                w token e Ht He Hlt) as (w1 & -> & Hs & Ht1 & He1).
    do 2 eexists. split; [reflexivity|]. split; [now left|]. split; [eauto|]. discriminate.
  - destruct (access_token_broken w token Ht He) as (exc & w1 & -> & Hs & Ht1 & He1).
    do 2 eexists. split; [reflexivity|]. split; [now left|]. split; [auto|].
    intros Hinv. exfalso. unfold token_has_expiry in Hinv.
    rewrite Ht, He in Hinv. destruct Hinv as [x Hx]; [eauto|discriminate].
Qed.

(** X5: A call of [access_token] that raises leaves [_access_token] and
    [_token_expiry] as they were, whatever was raised. *)
Theorem access_token_failure_keeps_cache (w w1 : World) (exc : PyExc) :
  access_token w = (Raise exc, w1) ->
  _access_token w1 = _access_token w /\ _token_expiry w1 = _token_expiry w.
Proof.
  intros Hrun. destruct (access_token_outcomes w) as (r & w' & E & _ & Hr & _).
  rewrite E in Hrun. inversion Hrun; subst. exact Hr.
Qed.

(** X6: A call of [access_token] sends at most one request, the
    authentication request, which carries no authorization header. *)
Theorem access_token_sends_at_most_one (w : World) :
  (sent (snd (access_token w)) = sent w \/
   sent (snd (access_token w)) = oauth_request :: sent w) /\
  headers oauth_request = [] /\ url oauth_request = OAUTH_URL /\
  http_post oauth_request = true.
Proof.
  destruct (access_token_outcomes w) as (r & w' & E & Hs & _).
  rewrite E. simpl. auto.
Qed.

(** X7: What [access_token] returns is what [_access_token] now holds,
    with an expiry.  When it is a token, then as long as the clock reads
    an instant before that expiry the next call returns the same token
    and sends nothing.  It is [None] only when the call authenticated
    and the answer had a null access token; the next call then
    authenticates again. *)
Theorem access_token_reuses_token (w w1 : World) (tok : option string) :
  access_token w = (Return tok, w1) ->
  exists e,
    _access_token w1 = tok /\ _token_expiry w1 = Some e /\
    (forall token, tok = Some token -> timezone_now (clock_reads w1) < e ->
     exists w2, access_token w1 = (Return (Some token), w2) /\ sent w2 = sent w1) /\
    (tok = None ->
     (exists data, urlopen (sent w) oauth_request = Return (JObject data) /\
                   data !! "access_token" = Some JNull) /\
     sent (snd (access_token w1)) = oauth_request :: sent w1).
Proof.
  intros Hrun.
  assert (Hnull : tok = None ->
            exists data, urlopen (sent w) oauth_request = Return (JObject data) /\
                         data !! "access_token" = Some JNull).
  { intros ->.
    destruct (cache_cases w) as [Hdue|[(token & e & Ht & He & Hlt)|(token & Ht & He)]].
    - destruct (access_token_due MT_MICROSOFT_ID MT_MICROSOFT_SECRET timezone_now urlopen
                  w Hdue) as (w0 & Hs & _ & _ & Hcase).
      destruct (urlopen (sent w) oauth_request) as [[s|d]|exc].
      + destruct Hcase as (exc & Hc). rewrite Hc in Hrun. discriminate.
      + destruct (bool_decide (is_Some (d !! "error"))).
        * rewrite Hcase in Hrun. discriminate.
        * destruct (d !! "access_token") as [value|] eqn:Ev.
          -- destruct Hcase as (w1' & Hc & _). rewrite Hc in Hrun.
             inversion Hrun as [[Hv Hw]].
             destruct value; [|discriminate]. exists d. split; [reflexivity|exact Ev].
          -- rewrite Hcase in Hrun. discriminate.
      + rewrite Hcase in Hrun. discriminate.
    - destruct (access_token_cached MT_MICROSOFT_ID MT_MICROSOFT_SECRET timezone_now
                  urlopen w token e Ht He Hlt) as (w2 & Hc & _).
      rewrite Hc in Hrun. discriminate.
    - destruct (access_token_broken w token Ht He) as (exc & w2 & Hc & _).
      rewrite Hc in Hrun. discriminate. }
  destruct (access_token_outcomes w) as (r & w' & E & _ & Hr & _).
  rewrite E in Hrun. inversion Hrun; subst.
  destruct Hr as (e & Ht & He).
  exists e. split; [exact Ht|]. split; [exact He|]. split.
  - intros token -> Hlt.
    destruct (access_token_cached MT_MICROSOFT_ID MT_MICROSOFT_SECRET timezone_now urlopen
                w1 token e Ht He Hlt) as (w2 & Hc & Hs & _).
    eauto.
  - intros ->. split; [now apply Hnull|].
    apply (access_token_due_sends MT_MICROSOFT_ID MT_MICROSOFT_SECRET timezone_now urlopen).
    left. exact Ht.
Qed.

(** X8: The cache never holds a token without an expiry: this holds after
    [__init__] and every call of [access_token] keeps it; and then a call
    that raises has sent the authentication request first. *)
Theorem token_has_expiry_invariant (w : World) :
  token_has_expiry unset /\
  (token_has_expiry w -> token_has_expiry (snd (access_token w))) /\
  (token_has_expiry w -> forall exc w1,
     access_token w = (Raise exc, w1) -> sent w1 = oauth_request :: sent w).
Proof.
  split.
  { intros [x Hx]. discriminate. }
  destruct (access_token_outcomes w) as (r & w' & E & _ & Hr & Hsent).
  rewrite E. simpl. split.
  - intros Hinv. unfold token_has_expiry in *. destruct r as [tok|exc].
    + destruct Hr as (e & _ & He). rewrite He. eauto.
    + destruct Hr as [Ht He]. now rewrite Ht, He.
  - intros Hinv exc w1 Hrun. inversion Hrun; subst. now apply (Hsent Hinv exc).
Qed.

(** X9: An authentication answer with neither an error nor an access token
    makes [access_token] raise a KeyError. *)
Theorem auth_answer_without_token (w : World) (data : gmap string string) :
  due w ->
  urlopen (sent w) oauth_request = Return (JObj data) ->
  data !! "error" = None ->
  data !! "access_token" = None ->
  exists exc w1, access_token w = (Raise exc, w1) /\ exc_class exc = "KeyError" /\
                 _access_token w1 = _access_token w.
Proof.
  intros Hdue Hresp Herr Htok. unfold JObj in Hresp.
  destruct (access_token_due MT_MICROSOFT_ID MT_MICROSOFT_SECRET timezone_now urlopen
              w Hdue) as (w0 & Hs & Ht & He & Hcase).
  rewrite Hresp in Hcase.
  rewrite bool_decide_eq_false_2 in Hcase
    by (rewrite lookup_fmap, Herr; intros [x Hx]; discriminate).
  rewrite lookup_fmap, Htok in Hcase. simpl in Hcase.
  do 2 eexists. split; [exact Hcase|]. split; [reflexivity|exact Ht].
Qed.

(** X10: What the remote end raises during the authentication comes out of
    [access_token] as it is, not wrapped. *)
Theorem auth_transport_failure_unwrapped (w : World) (exc : PyExc) :
  due w ->
  urlopen (sent w) oauth_request = Raise exc ->
  exists w1, access_token w = (Raise exc, w1) /\ sent w1 = oauth_request :: sent w.
Proof.
  intros Hdue Hresp.
  destruct (access_token_due MT_MICROSOFT_ID MT_MICROSOFT_SECRET timezone_now urlopen
              w Hdue) as (w0 & Hs & _ & _ & Hcase).
  rewrite Hresp in Hcase. eauto.
Qed.

(** X11: A token whose expiry has come is not handed out again: the call
    authenticates, and with a granted token returns and holds the new
    one, with a new expiry. *)
Theorem expired_token_replaced (w : World) (old new : string) (e : Z)
    (data : gmap string string) :
  _access_token w = Some old -> _token_expiry w = Some e ->
  e <= timezone_now (clock_reads w) ->
  urlopen (sent w) oauth_request = Return (JObj data) ->
  data !! "error" = None -> data !! "access_token" = Some new ->
  exists w1, access_token w = (Return (Some new), w1) /\
             _access_token w1 = Some new /\
             sent w1 = oauth_request :: sent w /\
             _token_expiry w1 = Some (timezone_now (S (clock_reads w)) + TOKEN_EXPIRY).
Proof.
  destruct w as [tok ex k snt]; simpl. intros -> -> Hle Hresp Herr Htok. run_token.
  destruct (Z.leb_spec e (timezone_now k)); [|lia]. simpl.
  fold oauth_request. rewrite Hresp. unfold JObj. simpl.
  rewrite bool_decide_eq_false_2
    by (rewrite lookup_fmap, Herr; intros [x Hx]; discriminate).
  rewrite lookup_fmap, Htok. simpl. eexists. split; [reflexivity|]. auto.
Qed.

End TokenCacheFacts.

(** ** More on the requests of MicrosoftTranslation *)

Section DownloadFacts.
Import MicrosoftTranslation Wire MicrosoftLanguages.

Variable MT_MICROSOFT_ID MT_MICROSOFT_SECRET : string.
Variable timezone_now : nat -> Z.
Variable urlopen : list Request -> Request -> result Json.

Local Abbreviation access_token :=
  (access_token MT_MICROSOFT_ID MT_MICROSOFT_SECRET timezone_now urlopen).
Local Abbreviation download_translations :=
  (download_translations MT_MICROSOFT_ID MT_MICROSOFT_SECRET timezone_now urlopen).
Local Abbreviation download_languages :=
  (download_languages MT_MICROSOFT_ID MT_MICROSOFT_SECRET timezone_now urlopen).
Local Abbreviation oauth_request := (oauth_request MT_MICROSOFT_ID MT_MICROSOFT_SECRET).

Lemma download_languages_run (w : World) :
  match access_token w with
  | (Raise exc, w0) => download_languages w = (Raise exc, w0)
  | (Return token, w0) =>
      exists w1, sent w1 = list_request token :: sent w0 /\
                 _access_token w1 = _access_token w0 /\
                 _token_expiry w1 = _token_expiry w0 /\
                 download_languages w = (urlopen (sent w0) (list_request token), w1)
  end.
Proof.
  unfold MicrosoftLanguages.download_languages, json_req, json_req_with,
    authenticate, bind, ret, send.
  destruct (access_token w) as [[token|exc] w0]; [|reflexivity].
  simpl. fold (list_request token).
  exists {| _access_token := _access_token w0; _token_expiry := _token_expiry w0;
            clock_reads := clock_reads w0;
            sent := list_request token :: sent w0 |}.
  repeat split.
Qed.

(** X12: A text of at most 5000 characters is sent whole. *)
Theorem short_text_sent_whole (source language text : string)
    (unit : Unit) (user : User) (w w0 : World) (token : option string) :
  (String.length text <= 5000)%nat ->
  access_token w = (Return token, w0) ->
  exists req r w1,
    download_translations source language text unit user w = (r, w1) /\
    sent w1 = req :: sent w0 /\
    url req = TRANSLATE_URL /\
    params req !! "text" = Some text.
Proof.
  intros Hlen Htok.
  pose proof (download_translations_run MT_MICROSOFT_ID MT_MICROSOFT_SECRET
                timezone_now urlopen source language text unit user w) as Hrun.
  rewrite Htok in Hrun. destruct Hrun as (w1 & Hs & _ & _ & Hrun).
  exists (translate_request token source language text). do 2 eexists.
  split; [exact Hrun|]. split; [exact Hs|]. split; [reflexivity|].
  simpl. rewrite translate_args_text. f_equal. now apply slice_to_all.
Qed.

(** X13: When the token cannot be had, neither [download_translations] nor
    [download_languages] sends its request: both raise what
    [access_token] raised, as it is, and the text has not left. *)
Theorem no_token_no_request (source language text : string)
    (unit : Unit) (user : User) (w w0 : World) (exc : PyExc) :
  access_token w = (Raise exc, w0) ->
  download_translations source language text unit user w = (Raise exc, w0) /\
  download_languages w = (Raise exc, w0) /\
  (sent w0 = sent w \/ sent w0 = oauth_request :: sent w).
Proof.
  intros Htok.
  pose proof (download_translations_run MT_MICROSOFT_ID MT_MICROSOFT_SECRET
                timezone_now urlopen source language text unit user w) as Hrun.
  pose proof (download_languages_run w) as Hl.
  rewrite Htok in Hrun, Hl. split; [exact Hrun|]. split; [exact Hl|].
  destruct (access_token_outcomes MT_MICROSOFT_ID MT_MICROSOFT_SECRET
              timezone_now urlopen w) as (r & w' & E & Hs & _).
  rewrite Htok in E. inversion E; subst. exact Hs.
Qed.

(** X14: The translation request is a GET with the bearer token in its
    authorization header and five parameters: the text, the two codes,
    the content type and the category. *)
Theorem translate_request_fields (source language text : string)
    (unit : Unit) (user : User) (w w0 : World) (token : string) :
  access_token w = (Return (Some token), w0) ->
  exists req r w1,
    download_translations source language text unit user w = (r, w1) /\
    sent w1 = req :: sent w0 /\
    url req = TRANSLATE_URL /\ http_post req = false /\
    headers req = [("Authorization", "Bearer " +:+ token)] /\
    params req !! "from" = Some source /\
    params req !! "to" = Some language /\
    params req !! "contentType" = Some "text/plain" /\
    params req !! "category" = Some "general" /\
    dom (params req) = {[ "text"; "from"; "to"; "contentType"; "category" ]}.
Proof.
  intros Htok.
  pose proof (download_translations_run MT_MICROSOFT_ID MT_MICROSOFT_SECRET
                timezone_now urlopen source language text unit user w) as Hrun.
  rewrite Htok in Hrun. destruct Hrun as (w1 & Hs & _ & _ & Hrun).
  exists (translate_request (Some token) source language text). do 2 eexists.
  split; [exact Hrun|]. split; [exact Hs|].
  split; [reflexivity|]. split; [reflexivity|]. split; [reflexivity|].
  simpl. unfold translate_args.
  split; [rewrite !lookup_insert_ne by done; apply lookup_insert_eq|].
  split; [rewrite !lookup_insert_ne by done; apply lookup_insert_eq|].
  split; [rewrite !lookup_insert_ne by done; apply lookup_insert_eq|].
  split; [rewrite !lookup_insert_ne by done; apply lookup_insert_eq|].
  rewrite !dom_insert_L, dom_empty_L. set_solver.
Qed.

(** X15: [download_languages] sends one GET without parameters, with the
    bearer token, and hands back what the remote end answers or raises,
    as it is. *)
Theorem download_languages_passes_answer (w w0 : World) (token : option string) :
  access_token w = (Return token, w0) ->
  exists w1,
    download_languages w = (urlopen (sent w0) (list_request token), w1) /\
    sent w1 = list_request token :: sent w0 /\
    params (list_request token) = ∅ /\
    url (list_request token) = LIST_URL.
Proof.
  intros Htok. pose proof (download_languages_run w) as Hl. rewrite Htok in Hl.
  destruct Hl as (w1 & Hs & _ & _ & Hl). exists w1. auto.
Qed.

(** X16: After a download that returned, the cache has an expiry.  When
    it holds a token, a second download made while the clock reads an
    instant before that expiry sends one request only, the translation
    request with the same token: there is no second authentication.
    When it holds [None] (a null token was granted), the second download
    sends the authentication request again, and at most one request
    after it. *)
Theorem second_download_reuses_token (source language text source' language' text' : string)
    (unit : Unit) (user : User) (w w1 : World) (candidates : list Candidate) :
  download_translations source language text unit user w = (Return candidates, w1) ->
  exists e,
    _token_expiry w1 = Some e /\
    (forall token, _access_token w1 = Some token ->
       timezone_now (clock_reads w1) < e ->
       sent (snd (download_translations source' language' text' unit user w1)) =
         translate_request (Some token) source' language' text' :: sent w1) /\
    (_access_token w1 = None ->
     exists pre,
       sent (snd (download_translations source' language' text' unit user w1)) =
         (pre ++ oauth_request :: sent w1)%list /\
       (length pre <= 1)%nat).
Proof.
  intros Hret.
  pose proof (download_translations_run MT_MICROSOFT_ID MT_MICROSOFT_SECRET
                timezone_now urlopen source language text unit user w) as Hrun.
  destruct (access_token w) as [[tok|exc] w0] eqn:Htok.
  - destruct (access_token_outcomes MT_MICROSOFT_ID MT_MICROSOFT_SECRET
                timezone_now urlopen w) as (r & w' & E & _ & Hr & _).
    rewrite Htok in E. inversion E; subst r w'.
    destruct Hr as (e & Ht & He).
    destruct Hrun as (w1' & Hs & Ht1 & He1 & Hrun). rewrite Hrun in Hret.
    inversion Hret; subst w1'.
    exists e. split; [congruence|].
    pose proof (download_translations_run MT_MICROSOFT_ID MT_MICROSOFT_SECRET
                  timezone_now urlopen source' language' text' unit user w1) as Hrun2.
    split.
    + intros token Hheld Hlt.
      destruct (access_token_cached MT_MICROSOFT_ID MT_MICROSOFT_SECRET timezone_now
                  urlopen w1 token e) as (w2 & Hc & Hs2 & _); try congruence.
      rewrite Hc in Hrun2. destruct Hrun2 as (w3 & Hs3 & _ & _ & Hrun2).
      rewrite Hrun2. simpl. congruence.
    + intros Hnone.
      pose proof (access_token_due_sends MT_MICROSOFT_ID MT_MICROSOFT_SECRET
                    timezone_now urlopen w1 (or_introl Hnone)) as Hsent.
      destruct (access_token w1) as [[tok'|exc'] w2]; simpl in Hsent.
      * destruct Hrun2 as (w3 & Hs3 & _ & _ & Hrun2). rewrite Hrun2. simpl.
        exists [translate_request tok' source' language' text'].
        rewrite Hs3, Hsent. split; [reflexivity|simpl; lia].
      * rewrite Hrun2. simpl. exists []. rewrite Hsent. split; [reflexivity|simpl; lia].
  - rewrite Hrun in Hret. discriminate.
Qed.

End DownloadFacts.

(** ** More on translate of the terminology service *)

Section TranslateFacts.
Import MicrosoftTerminologyService Observe Samples.

Variable DEFAULT_LANGS : list string.
Variable base_convert_language : string -> string.
Variable supported_languages : gset string.
Variable soap_translations : string -> string -> string -> result (list Translation).

Local Abbreviation translate :=
  (translate DEFAULT_LANGS base_convert_language supported_languages soap_translations).
Local Abbreviation fetch := (fetch soap_translations).
Local Abbreviation widen := (widen DEFAULT_LANGS).
Local Abbreviation first_pair_supported :=
  (first_pair_supported base_convert_language supported_languages).

Ltac run_translate :=
  unfold MicrosoftTerminologyService.translate, convert_language, is_supported,
    emit, bind, ret; simpl.

Lemma fetch_outcome (s l t : string) (unit : Unit) (user : User) (w : World) :
  match soap_translations s l t with
  | Return trs =>
      exists out, fetch s l t unit user w = (Return out, DownloadTranslations s l t :: w) /\
                  map to_tuple out = trs
  | Raise exc =>
      fetch s l t unit user w =
        (Raise (wrapped exc),
         ReportError exc failure_message :: DownloadTranslations s l t :: w)
  end.
Proof.
  destruct (soap_translations s l t) as [trs|exc] eqn:Es.
  - unfold MicrosoftTerminologyService.fetch, try_except, download_translations,
      report_error, emit, bind, ret, raise. simpl. rewrite Es.
    eexists. split; [reflexivity|].
    rewrite map_map. rewrite <- (map_id trs) at 2. apply map_ext.
    intros [[[t0 t1] t2] t3]. reflexivity.
  - now apply fetch_raise.
Qed.

(** A message of ASCII characters passes both conversions. *)
Lemma first_bad_ascii (s : string) (pos : nat) :
  Py2.is_ascii s = true -> Py2.first_bad s pos = None.
Proof.
  revert pos. induction s as [|c rest IH]; intros pos; simpl; [reflexivity|].
  destruct (Py2.is_ascii_char c); simpl; [apply IH|discriminate].
Qed.

Lemma first_bad_beyond (s : string) (pos : nat) :
  Py2.is_ascii s = false -> exists p c run, Py2.first_bad s pos = Some (p, c, run).
Proof.
  revert pos. induction s as [|c rest IH]; intros pos; simpl; [discriminate|].
  destruct (Py2.is_ascii_char c); simpl; [apply IH|eauto].
Qed.

Lemma wrapped_ascii (exc : PyExc) :
  Py2.is_ascii (exc_str exc) = true ->
  wrapped exc = MachineTranslationError (exc_class exc +:+ ": " +:+ exc_str exc).
Proof.
  intros Ha. unfold wrapped, Py2.str, Py2.encode_ascii, Py2.decode_ascii.
  destruct (exc_bytes exc); rewrite ?(first_bad_ascii _ 0 Ha); simpl;
    rewrite ?(first_bad_ascii _ 0 Ha); reflexivity.
Qed.

Lemma wrapped_beyond (exc : PyExc) :
  Py2.is_ascii (exc_str exc) = false ->
  exc_class (wrapped exc) =
    if exc_bytes exc then "UnicodeDecodeError" else "UnicodeEncodeError".
Proof.
  intros Ha. unfold wrapped, Py2.str, Py2.encode_ascii, Py2.decode_ascii.
  destruct (first_bad_beyond _ 0 Ha) as (p & c & run & E).
  destruct (exc_bytes exc); rewrite E; reflexivity.
Qed.

(** X17: When the pair is not supported as it stands and, once widened, the
    two sides are equal or the pair is still not supported, [translate]
    returns the empty list: nothing is downloaded, nothing reported. *)
Theorem translate_unsupported_pair (language text : string) (unit : Unit)
    (user : User) (w : World) :
  let l := base_convert_language language in
  let s := base_convert_language (source_language_code unit) in
  first_pair_supported unit language = false ->
  widen s = widen l \/
  bool_decide (widen l ∈ supported_languages) &&
    bool_decide (widen s ∈ supported_languages) = false ->
  exists w', translate language text unit user w = (Return [], w') /\
             downloads w' = downloads w /\ reports w' = reports w.
Proof.
  intros l s Hfirst Hsecond. unfold Samples.first_pair_supported in Hfirst.
  subst l s.
  unfold MicrosoftTerminologyService.translate.
  destruct (String.eqb text ""); [exists w; auto|].
  unfold convert_language, is_supported, emit, bind, ret. simpl.
  rewrite Hfirst. simpl.
  match goal with |- context [String.eqb ?a ?b] =>
    destruct (String.eqb_spec a b) as [Heq|Hne] end.
  - eexists. split; [reflexivity|]. auto.
  - destruct Hsecond as [Heq|Hun]; [contradiction|].
    rewrite Hun. simpl. eexists. split; [reflexivity|]. auto.
Qed.

(** X18: A pair that is supported as it stands is not widened: the download
    is asked for the converted codes and the text as given, after one
    support check. *)
Theorem translate_supported_pair_as_is (language text : string) (unit : Unit)
    (user : User) (w : World) :
  let l := base_convert_language language in
  let s := base_convert_language (source_language_code unit) in
  String.eqb text "" = false ->
  first_pair_supported unit language = true ->
  exists pre,
    snd (translate language text unit user w) =
      (pre ++ DownloadTranslations s l text :: IsSupported s l
           :: ConvertLanguage (source_language_code unit)
           :: ConvertLanguage language :: w)%list /\
    (pre = [] \/ exists exc, pre = [ReportError exc failure_message]).
Proof.
  intros l s Htext Hfirst. unfold Samples.first_pair_supported in Hfirst.
  subst l s.
  unfold MicrosoftTerminologyService.translate. rewrite Htext.
  unfold convert_language, is_supported, emit, bind, ret. simpl.
  rewrite Hfirst. simpl.
  match goal with |- context [fetch ?a ?b text unit user ?w0] =>
    pose proof (fetch_outcome a b text unit user w0) as Hf end.
  match type of Hf with context [soap_translations ?a ?b ?c] =>
    destruct (soap_translations a b c) as [trs|exc] end.
  - destruct Hf as (out & -> & _). exists []. simpl. auto.
  - rewrite Hf. eexists [_]. simpl. eauto.
Qed.

(** X19: When the pair is supported only once widened, the download is asked
    for the widened codes. *)
Theorem translate_downloads_widened_pair (language text : string) (unit : Unit)
    (user : User) (w : World) :
  let l := base_convert_language language in
  let s := base_convert_language (source_language_code unit) in
  String.eqb text "" = false ->
  first_pair_supported unit language = false ->
  widen s <> widen l ->
  bool_decide (widen l ∈ supported_languages) &&
    bool_decide (widen s ∈ supported_languages) = true ->
  downloads (snd (translate language text unit user w)) =
    (widen s, widen l, text) :: downloads w.
Proof.
  intros l s Htext Hfirst Hne Hsecond. unfold Samples.first_pair_supported in Hfirst.
  subst l s.
  unfold MicrosoftTerminologyService.translate. rewrite Htext.
  unfold convert_language, is_supported, emit, bind, ret. simpl.
  rewrite Hfirst. simpl.
  match goal with |- context [String.eqb ?a ?b] =>
    destruct (String.eqb_spec a b) as [Heq|_]; [contradiction|] end.
  rewrite Hsecond. simpl.
  match goal with |- context [fetch ?a ?b text unit user ?w0] =>
    pose proof (fetch_outcome a b text unit user w0) as Hf end.
  match type of Hf with context [soap_translations ?a ?b ?c] =>
    destruct (soap_translations a b c) as [trs|exc] end.
  - destruct Hf as (out & -> & _). reflexivity.
  - rewrite Hf. reflexivity.
Qed.

(** X20: When [translate] returns, nothing was reported, and the suggestions
    are the tuples of the one download, in their order and field by
    field, or the empty list when nothing was downloaded. *)
Theorem translate_returns_the_tuples (language text : string) (unit : Unit)
    (user : User) (w w' : World) (out : list Suggestion) :
  translate language text unit user w = (Return out, w') ->
  reports w' = reports w /\
  ((out = [] /\ downloads w' = downloads w) \/
   exists s l, downloads w' = (s, l, text) :: downloads w /\
               soap_translations s l text = Return (map to_tuple out)).
Proof.
  intros Hrun.
  destruct (translate_cases DEFAULT_LANGS base_convert_language supported_languages
              soap_translations language text unit user w)
    as [(w1 & E & D & R)|(s & l & w0 & E & D & R)]; rewrite E in Hrun.
  - inversion Hrun; subst. auto.
  - pose proof (fetch_outcome s l text unit user w0) as Hf.
    destruct (soap_translations s l text) as [trs|exc] eqn:Es.
    + destruct Hf as (out' & Hf & Hm). rewrite Hf in Hrun. inversion Hrun; subst.
      simpl. rewrite D, R. split; [reflexivity|]. right. exists s, l. auto.
    + rewrite Hf in Hrun. discriminate.
Qed.

(** X21: [translate] raises only for a download that raised: that
    exception was reported, once.  When its message is made of ASCII
    characters, what is raised is the MachineTranslationError whose
    message is its class name, a colon and its message; otherwise it is
    the UnicodeEncodeError of [str(exc)] for a text message and the
    UnicodeDecodeError of the formatting for a byte-string message. *)
Theorem translate_raises_only_wrapped (language text : string) (unit : Unit)
    (user : User) (w w' : World) (error : PyExc) :
  translate language text unit user w = (Raise error, w') ->
  exists s l exc,
    soap_translations s l text = Raise exc /\
    downloads w' = (s, l, text) :: downloads w /\
    reports w' = (exc, failure_message) :: reports w /\
    (Py2.is_ascii (exc_str exc) = true ->
     error = MachineTranslationError (exc_class exc +:+ ": " +:+ exc_str exc)) /\
    (Py2.is_ascii (exc_str exc) = false ->
     exc_class error =
       if exc_bytes exc then "UnicodeDecodeError" else "UnicodeEncodeError").
Proof.
  intros Hrun.
  destruct (translate_cases DEFAULT_LANGS base_convert_language supported_languages
              soap_translations language text unit user w)
    as [(w1 & E & D & R)|(s & l & w0 & E & D & R)]; rewrite E in Hrun.
  - discriminate.
  - pose proof (fetch_outcome s l text unit user w0) as Hf.
    destruct (soap_translations s l text) as [trs|exc] eqn:Es.
    + destruct Hf as (out' & Hf & Hm). rewrite Hf in Hrun. discriminate.
    + rewrite Hf in Hrun. inversion Hrun; subst.
      exists s, l, exc. simpl. rewrite D, R.
      split; [exact Es|]. split; [reflexivity|]. split; [reflexivity|].
      split; [apply wrapped_ascii|apply wrapped_beyond].
Qed.

(** X30: When the download [translate] makes raises an exception, the
    exception is handed to [report_error], once; and when its message is
    made of ASCII characters the caller gets a MachineTranslationError
    whose message is the class name of the exception, a colon and its
    message, not the exception itself. *)
Theorem translate_wraps_ascii_failure
    (language text : string) (unit : Unit) (user : User) (w w' : World)
    (r : result (list Suggestion)) (s l t : string) (exc : PyExc) :
  translate language text unit user w = (r, w') ->
  downloads w' = (s, l, t) :: downloads w ->
  soap_translations s l t = Raise exc ->
  reports w' = (exc, failure_message) :: reports w /\
  (Py2.is_ascii (exc_str exc) = true ->
   r = Raise (MachineTranslationError (exc_class exc +:+ ": " +:+ exc_str exc)) /\
   exc_class (MachineTranslationError (exc_class exc +:+ ": " +:+ exc_str exc))
     = "MachineTranslationError").
Proof.
  intros Hrun Hdl Hexc.
  assert (Hne : forall (x : string * string * string) xs, x :: xs <> xs).
  { intros x xs E. apply (f_equal (@length _)) in E. simpl in E. lia. }
  destruct (translate_cases DEFAULT_LANGS base_convert_language supported_languages
              soap_translations language text unit user w)
    as [(w1 & E & D & R)|(s1 & l1 & w0 & E & D & R)]; rewrite E in Hrun.
  - inversion Hrun; subst. rewrite D in Hdl. symmetry in Hdl. now apply Hne in Hdl.
  - pose proof (fetch_outcome s1 l1 text unit user w0) as Hf.
    destruct (soap_translations s1 l1 text) as [trs|exc1] eqn:Es.
    + destruct Hf as (out & F & _).
      rewrite F in Hrun. inversion Hrun; subst. simpl in Hdl.
      rewrite D in Hdl. inversion Hdl; subst. congruence.
    + rewrite Hf in Hrun.
      inversion Hrun; subst. simpl in Hdl. rewrite D in Hdl.
      inversion Hdl; subst. rewrite Es in Hexc. inversion Hexc; subst.
      simpl. rewrite R. split; [reflexivity|].
      intros Ha. rewrite (wrapped_ascii _ Ha). auto.
Qed.

End TranslateFacts.

(** ** The SOAP requests of the terminology service *)

Section SoapFacts.
Import Soap Samples.

Variable Template : Type.
Variable get_template : string -> result Template.
Variable render : Template -> gmap string Val -> result string.
Variable uuid4 : nat -> string.
Variable urlopen : list Request -> Request -> result Handle.
Variable fromstring : string -> result Element.
Variable int : option string -> result Z.

Local Abbreviation soap_req := (soap_req Template get_template render uuid4 urlopen).
Local Abbreviation soap_status_req :=
  (soap_status_req Template get_template render uuid4 urlopen).
Local Abbreviation json_status_req :=
  (json_status_req Template get_template render uuid4 urlopen).
Local Abbreviation download_languages :=
  (download_languages Template get_template render uuid4 urlopen fromstring).
Local Abbreviation download_translations :=
  (download_translations Template get_template render uuid4 urlopen fromstring int).

Ltac run_soap :=
  unfold Soap.soap_req, try_except, lift, draw_uuid, send, bind, ret, raise; simpl.

Ltac sent_case :=
  let Eu := fresh "Eu" in
  let Em := fresh "Em" in
  let error := fresh "error" in
  match goal with |- context [urlopen ?h ?q] =>
    destruct (urlopen h q) as [?|error] eqn:Eu end;
  simpl; [|destruct (Py2.unicode error) eqn:Em; simpl];
  do 2 eexists; (split; [reflexivity|]); right; eexists; simpl;
  (split; [reflexivity|]); (split; [reflexivity|]); (split; [reflexivity|]);
  (split; [reflexivity|]); rewrite Eu; simpl; rewrite ?Em; reflexivity.

Ltac stop_case :=
  try match goal with |- context [Py2.unicode ?e] => destruct (Py2.unicode e) end;
  do 2 eexists; (split; [reflexivity|]); left; eauto.

Lemma qualified_path (name : string) :
  MS_TM_XPATH +:+ name = ".//" +:+ qualified name.
Proof. reflexivity. Qed.

(** [unicode(error)] is the message when that is a text or has only
    ASCII characters, and fails otherwise. *)
Lemma unicode_text (error : PyExc) :
  exc_bytes error = false \/ Py2.is_ascii (exc_str error) = true ->
  Py2.unicode error = Return (exc_str error).
Proof.
  unfold Py2.unicode, Py2.decode_ascii.
  destruct (exc_bytes error); [|reflexivity].
  intros [H|H]; [discriminate|]. now rewrite (first_bad_ascii _ 0 H).
Qed.

Lemma unicode_beyond (error : PyExc) :
  exc_bytes error = true -> Py2.is_ascii (exc_str error) = false ->
  exists failure, Py2.unicode error = Raise failure /\
                  exc_class failure = "UnicodeDecodeError".
Proof.
  unfold Py2.unicode, Py2.decode_ascii. intros -> H.
  destruct (first_bad_beyond _ 0 H) as (p & c & run & ->). eauto.
Qed.

(** What a call of [soap_req] does: it stops before sending, with an
    exception, or sends one request and wraps what the remote end
    raises. *)
Lemma soap_req_outcomes (url : string) (http_post skip_auth : bool)
    (kwargs : gmap string string) (w : World) :
  exists r w1, soap_req url http_post skip_auth kwargs w = (r, w1) /\
    ((sent w1 = sent w /\ exists exc, r = Raise exc) \/
     exists req, sent w1 = req :: sent w /\
       Soap.url req = MS_TM_API_URL /\ timeout_ms req = None /\
       headers req = soap_headers (default EmptyString (kwargs !! "soap_action")) /\
       match urlopen (sent w) req with
       | Return handle => r = Return handle
       | Raise error =>
           match Py2.unicode error with
           | Return message => r = Raise (MachineTranslationError message)
           | Raise failure => r = Raise failure
           end
       end).
Proof.
  run_soap.
  destruct (String.eqb _ "GetLanguages").
  { destruct (get_template LANGS_TEMPLATE) as [t|exc]; simpl.
    - destruct (render t _) as [doc|exc]; simpl.
      + sent_case.
      + stop_case.
    - stop_case. }
  destruct (String.eqb _ "GetTranslations").
  2:{ stop_case. }
  match goal with |- context [if ?c then _ else _] => destruct c end; simpl.
  2:{ stop_case. }
  destruct (get_template TRANSLATE_TEMPLATE) as [t|exc]; simpl.
  - destruct (render t _) as [doc|exc]; simpl.
    + sent_case.
    + stop_case.
  - stop_case.
Qed.

(** X22: An action that is neither GetLanguages nor GetTranslations makes
    [soap_req] raise an AttributeError, not a MachineTranslationError,
    before anything is built or sent. *)
Theorem soap_req_unknown_action (url : string) (http_post skip_auth : bool)
    (kwargs : gmap string string) (w : World) :
  default EmptyString (kwargs !! "soap_action") <> "GetLanguages" ->
  default EmptyString (kwargs !! "soap_action") <> "GetTranslations" ->
  soap_req url http_post skip_auth kwargs w =
    (Raise (Exc "AttributeError"
              "'MachineTranslationError' object has no attribute 'format'"), w).
Proof.
  intros H1 H2. run_soap.
  destruct (String.eqb_spec (default EmptyString (kwargs !! "soap_action")) "GetLanguages");
    [contradiction|].
  destruct (String.eqb_spec (default EmptyString (kwargs !! "soap_action")) "GetTranslations");
    [contradiction|].
  reflexivity.
Qed.

Lemma soap_req_missing_field (url : string) (http_post skip_auth : bool)
    (kwargs : gmap string string) (w : World) :
  kwargs !! "soap_action" = Some "GetTranslations" ->
  default EmptyString (kwargs !! "source") = EmptyString \/
  default EmptyString (kwargs !! "language") = EmptyString \/
  default EmptyString (kwargs !! "text") = EmptyString ->
  soap_req url http_post skip_auth kwargs w =
    (Raise (MachineTranslationError unbound_template), w).
Proof.
  intros Ha Hmiss. run_soap. rewrite Ha. simpl.
  assert (Hc : truthy (default EmptyString (kwargs !! "source")) &&
               truthy (default EmptyString (kwargs !! "language")) &&
               truthy (default EmptyString (kwargs !! "text")) = false).
  { destruct Hmiss as [ -> | [ -> | -> ] ]; simpl;
      rewrite ?andb_false_r; reflexivity. }
  rewrite Hc. reflexivity.
Qed.

(** X23: A translation request with an empty source, target or text is not
    built: [download_translations] raises a MachineTranslationError and
    nothing is sent, no identifier drawn. *)
Theorem empty_field_no_request (source language text : string)
    (unit : Unit) (user : User) (w : World) :
  source = EmptyString \/ language = EmptyString \/ text = EmptyString ->
  download_translations source language text unit user w =
    (Raise (MachineTranslationError unbound_template), w).
Proof.
  intros Hmiss. unfold Soap.download_translations, Soap.soap_status_req.
  unfold bind at 1 2.
  rewrite soap_req_missing_field; [reflexivity| |].
  - apply lookup_insert_eq.
  - rewrite lookup_insert_ne, lookup_insert_eq by done.
    rewrite !lookup_insert_ne, lookup_insert_eq by done.
    rewrite !lookup_insert_ne, lookup_insert_eq by done.
    simpl. tauto.
Qed.

(** X24: [soap_req] sends at most one request, and that one goes to the
    address of the service, whatever address it was given, with the
    quoted action as SOAPAction; the timeout of half a second assigned
    to the request is replaced by the default of [urlopen] when it is
    sent.  It returns only the handle the remote end gave for it.  What
    the remote end raises comes out as a MachineTranslationError with
    the message of the exception when that message is a text or has only
    ASCII characters, and as a UnicodeDecodeError when it is a byte
    string with a byte beyond ASCII. *)
Theorem soap_req_sends_to_service (url : string) (http_post skip_auth : bool)
    (kwargs : gmap string string) (w w1 : World) (r : result Handle) :
  soap_req url http_post skip_auth kwargs w = (r, w1) ->
  (sent w1 = sent w /\ exists exc, r = Raise exc) \/
  exists req, sent w1 = req :: sent w /\
    Soap.url req = MS_TM_API_URL /\ timeout_ms req = None /\
    headers req !! "SOAPAction" =
      Some (dquote +:+ MS_TM_SOAP_HEADER +:+
            default EmptyString (kwargs !! "soap_action") +:+ dquote) /\
    headers req !! "Content-Type" = Some "text/xml; charset=utf-8" /\
    match urlopen (sent w) req with
    | Return handle => r = Return handle
    | Raise error =>
        (exc_bytes error = false \/ Py2.is_ascii (exc_str error) = true ->
         r = Raise (MachineTranslationError (exc_str error))) /\
        (exc_bytes error = true -> Py2.is_ascii (exc_str error) = false ->
         exists failure, r = Raise failure /\
                         exc_class failure = "UnicodeDecodeError")
    end.
Proof.
  intros Hrun.
  destruct (soap_req_outcomes url http_post skip_auth kwargs w)
    as (r' & w' & E & [Hstop|(req & Hs & Hu & Ht & Hh & Hr)]);
    rewrite E in Hrun; inversion Hrun; subst.
  - now left.
  - right. exists req. rewrite Hh. unfold soap_headers.
    split; [assumption|]. split; [assumption|]. split; [assumption|].
    split; [|split].
    + rewrite lookup_insert_eq. reflexivity.
    + now rewrite lookup_insert_ne, lookup_insert_eq by done.
    + destruct (urlopen (sent w) req) as [handle|error]; [assumption|]. split.
      * intros Ht'. now rewrite (unicode_text error Ht') in Hr.
      * intros Hb Ha. destruct (unicode_beyond error Hb Ha) as (failure & Ef & Hc).
        rewrite Ef in Hr. eauto.
Qed.

(** X25: [soap_status_req] returns a handle only with the status 200; with
    another status the request has been sent all the same and the
    message of the answer is raised as a MachineTranslationError. *)
Theorem soap_status_req_checks_status (url : string) (http_post skip_auth : bool)
    (kwargs : gmap string string) (w w1 : World) (handle : Handle) :
  soap_req url http_post skip_auth kwargs w = (Return handle, w1) ->
  (code handle = 200 ->
   soap_status_req url http_post skip_auth kwargs w = (Return handle, w1)) /\
  (code handle <> 200 ->
   soap_status_req url http_post skip_auth kwargs w =
     (Raise (Exc "MachineTranslationError" (msg handle)), w1)) /\
  exists req, sent w1 = req :: sent w.
Proof.
  intros Hrun. unfold Soap.soap_status_req, bind. rewrite Hrun.
  split; [|split].
  - intros ->. reflexivity.
  - intros Hne. destruct (Z.eqb_spec (code handle) 200); [contradiction|reflexivity].
  - destruct (soap_req_outcomes url http_post skip_auth kwargs w)
      as (r' & w' & E & [[_ [exc Hexc]]|(req & Hs & _)]);
      rewrite E in Hrun; inversion Hrun; subst; [discriminate|eauto].
Qed.

(** X26: [json_status_req] does what [soap_status_req] does: its own check
    of the status never fires. *)
Theorem json_status_req_is_soap_status_req (url : string) (http_post skip_auth : bool)
    (kwargs : gmap string string) (w : World) :
  json_status_req url http_post skip_auth kwargs w =
    soap_status_req url http_post skip_auth kwargs w.
Proof.
  unfold Soap.json_status_req, Soap.soap_status_req, bind, ret, raise.
  change (Soap.soap_req Template get_template render uuid4 urlopen url http_post true kwargs w)
    with (soap_req url http_post skip_auth kwargs w).
  destruct (soap_req url http_post skip_auth kwargs w) as [[handle|exc] w1];
    [|reflexivity].
  destruct (Z.eqb_spec (code handle) 200) as [E|E]; simpl; [|reflexivity].
  destruct (Z.eqb_spec (code handle) 200); [reflexivity|contradiction].
Qed.

Lemma language_codes_all (langs : list Element) (acc : list (option string)) (w : World) :
  Forall has_code langs ->
  language_codes langs acc w = (Return (acc ++ map code_text langs)%list, w).
Proof.
  intros H. revert acc. induction H as [|lang rest Hl _ IH]; intros acc; simpl.
  - now rewrite app_nil_r.
  - unfold bind, find_text, code_text. destruct Hl as [found Hf]. rewrite Hf. simpl.
    rewrite IH. now rewrite <- app_assoc.
Qed.

Lemma language_codes_missing (langs : list Element) (acc : list (option string)) (w : World) :
  Exists (fun lang => find (qualified "Code") lang = None) langs ->
  language_codes langs acc w =
    (Raise (Exc "AttributeError" "'NoneType' object has no attribute 'text'"), w).
Proof.
  revert acc. induction langs as [|lang rest IH]; intros acc H.
  - inversion H.
  - simpl. unfold bind, find_text.
    destruct (find (qualified "Code") lang) as [found|] eqn:Ef; simpl.
    + apply IH. inversion H; subst; [congruence|assumption].
    + reflexivity.
Qed.

(** X27: With the answer of the service parsed, [download_languages] returns
    the empty list when the answer has no result element, the texts of
    the codes of its children, in order, when each child has one, and
    raises an AttributeError when a child has none. *)
Theorem download_languages_reads_codes (w w1 : World) (resp : Handle) (root : Element) :
  soap_status_req MS_TM_API_URL false false (<["soap_action" := "GetLanguages"]> ∅) w
    = (Return resp, w1) ->
  fromstring (body resp) = Return root ->
  match find (qualified "GetLanguagesResult") root with
  | None => download_languages w = (Return [], w1)
  | Some results =>
      (Forall has_code (children_of results) ->
       download_languages w = (Return (map code_text (children_of results)), w1)) /\
      (Exists (fun lang => find (qualified "Code") lang = None) (children_of results) ->
       exists exc, download_languages w = (Raise exc, w1) /\
                   exc_class exc = "AttributeError")
  end.
Proof.
  intros Hreq Hparse. unfold Soap.download_languages, bind, lift.
  rewrite Hreq, Hparse.
  destruct (find (qualified "GetLanguagesResult") root) as [results|]; [|reflexivity].
  split.
  - intros Hall. now rewrite language_codes_all.
  - intros Hex. rewrite language_codes_missing by assumption. eauto.
Qed.

Lemma translation_tuples_shape (results : list Element) (acc out : list Translation)
    (w w1 : World) :
  translation_tuples int results acc w = (Return out, w1) ->
  w1 = w /\
  exists new, out = (acc ++ new)%list /\ length new = length results /\
              Forall (fun t : Translation => t.1.2 = MicrosoftTerminologyService.name) new.
Proof.
  revert acc. induction results as [|translation rest IH]; intros acc; simpl.
  - unfold ret. intros H. inversion H; subst. split; [reflexivity|].
    exists []. rewrite app_nil_r. auto.
  - unfold bind, find_text, lift.
    destruct (find (qualified "TranslatedText") translation); simpl; [|discriminate].
    destruct (find (qualified "ConfidenceLevel") translation); simpl; [|discriminate].
    destruct (int _) as [z|exc]; [|discriminate].
    destruct (find (qualified "OriginalText") translation); simpl; [|discriminate].
    intros H. apply IH in H. destruct H as (-> & new & -> & Hlen & Hall).
    split; [reflexivity|]. eexists (_ :: new). rewrite <- app_assoc. simpl.
    split; [reflexivity|]. split; [now rewrite Hlen|].
    constructor; [reflexivity|assumption].
Qed.

(** X28: What [download_translations] returns has one tuple for each child
    of the result element of the answer (none without that element),
    and each tuple names the service. *)
Theorem download_translations_tuples (source language text : string)
    (unit : Unit) (user : User) (w w1 : World) (out : list Translation) :
  download_translations source language text unit user w = (Return out, w1) ->
  Forall (fun t : Translation => t.1.2 = "Microsoft Terminology") out /\
  exists resp root,
    soap_status_req MS_TM_API_URL false false
      (<["soap_action" := "GetTranslations"]>
       (<["source" := source]> (<["language" := language]> (<["text" := text]> ∅)))) w
      = (Return resp, w1) /\
    code resp = 200 /\
    fromstring (body resp) = Return root /\
    length out = match find (qualified "GetTranslationsResult") root with
                 | Some results => length (children_of results)
                 | None => O
                 end.
Proof.
  unfold Soap.download_translations. unfold bind at 1 2. unfold lift.
  match goal with |- context [Soap.soap_status_req ?a ?b ?c ?d ?e ?f ?g ?h ?i w] =>
    destruct (Soap.soap_status_req a b c d e f g h i w) as [[resp|exc] w0] eqn:Es end;
    [|discriminate].
  assert (Hcode : code resp = 200).
  { revert Es. unfold Soap.soap_status_req, bind, ret, raise.
    destruct (Soap.soap_req _ _ _ _ _ _ _ _ _ w) as [[h|exc] w'] eqn:Er; [|discriminate].
    destruct (Z.eqb_spec (code h) 200); simpl; [|discriminate].
    intros H. inversion H; subst. assumption. }
  destruct (fromstring (body resp)) as [root|exc] eqn:Ep; [|discriminate].
  destruct (find (qualified "GetTranslationsResult") root) as [results|] eqn:Ef.
  - intros H. apply translation_tuples_shape in H.
    destruct H as (-> & new & -> & Hlen & Hall). simpl.
    split; [exact Hall|]. exists resp, root. rewrite Ef. auto.
  - unfold ret. intros H. inversion H; subst. split; [constructor|].
    exists resp, root. rewrite Ef. auto.
Qed.

End SoapFacts.

(** ** The token cache of MicrosoftCognitiveTranslation *)

Section CognitiveFacts.
Import MicrosoftTranslation MicrosoftCognitiveTranslation Wire.

Variable MT_MICROSOFT_COGNITIVE_KEY : string.
Variable timezone_now : nat -> Z.
Variable urlopen_raw : list Request -> Request -> result string.

Local Abbreviation cognitive_access_token :=
  (MicrosoftCognitiveTranslation.access_token MT_MICROSOFT_COGNITIVE_KEY
     timezone_now urlopen_raw).
Local Abbreviation token_request := (token_request MT_MICROSOFT_COGNITIVE_KEY).

(** X29: When a refresh is due, the Cognitive variant installs the text the
    key exchange answers, whatever it is, as the token, with the lease of
    nine minutes from the last reading of the clock the call makes; it
    raises only what the remote end raises, and then leaves the cache as
    it was. *)
Theorem cognitive_installs_answer (w : World) :
  due timezone_now w ->
  match urlopen_raw (sent w) token_request with
  | Return answer =>
      exists w1 k,
        cognitive_access_token w = (Return (Some answer), w1) /\
        _access_token w1 = Some answer /\
        sent w1 = token_request :: sent w /\
        clock_reads w1 = S k /\
        _token_expiry w1 = Some (timezone_now k + TOKEN_EXPIRY)
  | Raise exc =>
      exists w1,
        cognitive_access_token w = (Raise exc, w1) /\
        _access_token w1 = _access_token w /\ _token_expiry w1 = _token_expiry w
  end.
Proof.
  destruct w as [tok ex k snt]. unfold Wire.due. simpl. intros Hdue.
  assert (Hguard : tok = None \/
            exists t e, tok = Some t /\ ex = Some e /\ e <= timezone_now k).
  { destruct Hdue as [->|(e & -> & He)]; [now left|].
    destruct tok as [t|]; [right; eauto|now left]. }
  clear Hdue.
  unfold MicrosoftCognitiveTranslation.access_token, is_token_expired,
    json_req_raw_with, send_raw, now, get_access_token, get_token_expiry,
    set_access_token, set_token_expiry, bind, ret, raise. simpl.
  fold token_request.
  destruct Hguard as [->|(t & e & -> & -> & He)]; simpl.
  - destruct (urlopen_raw snt token_request) as [answer|exc]; simpl.
    + do 2 eexists. split; [reflexivity|]. simpl. auto.
    + eexists. split; [reflexivity|]. auto.
  - destruct (Z.leb_spec e (timezone_now k)); [|lia]. simpl.
    destruct (urlopen_raw snt token_request) as [answer|exc]; simpl.
    + do 2 eexists. split; [reflexivity|]. simpl. auto.
    + eexists. split; [reflexivity|]. auto.
Qed.

End CognitiveFacts.

(** ** Runs of the REST provider against the sample remote ends *)

Section RestRuns.
Import MicrosoftTranslation MicrosoftLanguages Wire Samples.

Local Abbreviation token_granted := (access_token "id" "secret" ticking granting).
Local Abbreviation token_refused := (access_token "id" "secret" ticking refusing).
Local Abbreviation download_granted :=
  (download_translations "id" "secret" ticking granting).
Local Abbreviation held := (snd (token_granted unset)).
Local Abbreviation token_nulled := (access_token "id" "secret" ticking granting_null).
Local Abbreviation nulled := (snd (token_nulled unset)).

Lemma access_token_failure_keeps_cache_witness :
  token_refused stale =
    (Raise (MachineTranslationError "invalid_client: unknown client"),
     snd (token_refused stale)) /\
  _access_token (snd (token_refused stale)) = Some "old" /\
  _token_expiry (snd (token_refused stale)) = Some 0.
Proof.
  assert (H : token_refused stale =
                (Raise (MachineTranslationError "invalid_client: unknown client"),
                 snd (token_refused stale))) by (vm_compute; reflexivity).
  split; [exact H|].
  exact (access_token_failure_keeps_cache "id" "secret" ticking refusing stale _ _ H).
Defined.

Lemma access_token_reuses_token_witness :
  (token_granted unset = (Return (Some "t0k3n"), held) /\
   exists w2, token_granted held = (Return (Some "t0k3n"), w2) /\ sent w2 = sent held) /\
  (token_nulled unset = (Return None, nulled) /\
   _access_token nulled = None /\
   sent (snd (token_nulled nulled)) = oauth_request "id" "secret" :: sent nulled).
Proof.
  split.
  - assert (H : token_granted unset = (Return (Some "t0k3n"), held))
      by (vm_compute; reflexivity).
    split; [exact H|].
    destruct (access_token_reuses_token "id" "secret" ticking granting unset held _ H)
      as (e & _ & He & Hreuse & _).
    assert (e = 540000000) by (vm_compute in He; congruence). subst e.
    apply (Hreuse "t0k3n" eq_refl). vm_compute. reflexivity.
  - assert (H : token_nulled unset = (Return None, nulled))
      by (vm_compute; reflexivity).
    split; [exact H|].
    destruct (access_token_reuses_token "id" "secret" ticking granting_null unset nulled
                _ H) as (e & Ht & _ & _ & Hnull).
    split; [exact Ht|]. exact (proj2 (Hnull eq_refl)).
Defined.

Lemma token_has_expiry_invariant_witness :
  token_has_expiry unset /\ token_has_expiry held.
Proof.
  destruct (token_has_expiry_invariant "id" "secret" ticking granting unset)
    as (H0 & Hkeep & _).
  split; [exact H0|]. exact (Hkeep H0).
Defined.

Lemma auth_answer_without_token_witness :
  due ticking unset /\
  exists exc w1,
    access_token "id" "secret" ticking tokenless unset = (Raise exc, w1) /\
    exc_class exc = "KeyError" /\ _access_token w1 = None.
Proof.
  assert (Hdue : due ticking unset) by (left; reflexivity).
  split; [exact Hdue|].
  exact (auth_answer_without_token "id" "secret" ticking tokenless unset ∅ Hdue
           eq_refl eq_refl eq_refl).
Defined.

Lemma auth_transport_failure_unwrapped_witness :
  due ticking stale /\
  exists w1,
    access_token "id" "secret" ticking unreachable stale =
      (Raise (Exc "URLError" "<urlopen error timed out>"), w1) /\
    sent w1 = [oauth_request "id" "secret"].
Proof.
  assert (Hdue : due ticking stale).
  { right. exists 0. split; [reflexivity|]. vm_compute. discriminate. }
  split; [exact Hdue|].
  exact (auth_transport_failure_unwrapped "id" "secret" ticking unreachable stale _
           Hdue eq_refl).
Defined.

Lemma expired_token_replaced_witness :
  exists w1, token_granted stale = (Return (Some "t0k3n"), w1) /\
             _access_token w1 = Some "t0k3n" /\
             sent w1 = [oauth_request "id" "secret"] /\
             _token_expiry w1 = Some (ticking 1 + TOKEN_EXPIRY).
Proof.
  refine (expired_token_replaced "id" "secret" ticking granting stale "old" "t0k3n" 0
            (<["access_token" := "t0k3n"]> ∅) eq_refl eq_refl _ eq_refl eq_refl eq_refl).
  vm_compute. discriminate.
Defined.

Lemma short_text_sent_whole_witness :
  (String.length "hello" <= 5000)%nat /\
  exists req r w1,
    download_granted "en" "fr" "hello" (Observe.unit_of "en") Observe.nobody unset
      = (r, w1) /\
    sent w1 = req :: sent held /\
    url req = TRANSLATE_URL /\
    params req !! "text" = Some "hello".
Proof.
  assert (Hlen : (String.length "hello" <= 5000)%nat) by (simpl; lia).
  split; [exact Hlen|].
  refine (short_text_sent_whole "id" "secret" ticking granting "en" "fr" "hello"
            (Observe.unit_of "en") Observe.nobody unset held (Some "t0k3n") Hlen _).
  vm_compute. reflexivity.
Defined.

Lemma no_token_no_request_witness :
  let refused := MachineTranslationError "invalid_client: unknown client" in
  download_translations "id" "secret" ticking refusing "en" "fr" "hello"
    (Observe.unit_of "en") Observe.nobody unset
    = (Raise refused, snd (token_refused unset)) /\
  download_languages "id" "secret" ticking refusing unset
    = (Raise refused, snd (token_refused unset)) /\
  sent (snd (token_refused unset)) = [oauth_request "id" "secret"].
Proof.
  intros refused.
  destruct (no_token_no_request "id" "secret" ticking refusing "en" "fr" "hello"
              (Observe.unit_of "en") Observe.nobody unset (snd (token_refused unset))
              (MachineTranslationError "invalid_client: unknown client"))
    as (A & B & _).
  - vm_compute. reflexivity.
  - split; [exact A|]. split; [exact B|]. vm_compute. reflexivity.
Defined.

Lemma translate_request_fields_witness :
  exists req r w1,
    download_granted "en" "fr" "hello" (Observe.unit_of "en") Observe.nobody unset
      = (r, w1) /\
    sent w1 = req :: sent held /\
    url req = TRANSLATE_URL /\ http_post req = false /\
    headers req = [("Authorization", "Bearer t0k3n")] /\
    params req !! "from" = Some "en" /\
    params req !! "to" = Some "fr" /\
    params req !! "contentType" = Some "text/plain" /\
    params req !! "category" = Some "general" /\
    dom (params req) = {[ "text"; "from"; "to"; "contentType"; "category" ]}.
Proof.
  refine (translate_request_fields "id" "secret" ticking granting "en" "fr" "hello"
            (Observe.unit_of "en") Observe.nobody unset held "t0k3n" _).
  vm_compute. reflexivity.
Defined.

Lemma download_languages_passes_answer_witness :
  exists w1,
    download_languages "id" "secret" ticking granting unset =
      (Return (JStr "bonjour"), w1) /\
    sent w1 = list_request (Some "t0k3n") :: sent held /\
    params (list_request (Some "t0k3n")) = ∅ /\
    url (list_request (Some "t0k3n")) = LIST_URL.
Proof.
  refine (download_languages_passes_answer "id" "secret" ticking granting unset held
            (Some "t0k3n") _).
  vm_compute. reflexivity.
Defined.

Lemma second_download_reuses_token_witness :
  let first := download_granted "en" "fr" "hello" (Observe.unit_of "en") Observe.nobody
                 unset in
  fst first = Return [(JStr "bonjour", 100, name, "hello")] /\
  sent (snd (download_granted "en" "de" "world" (Observe.unit_of "en") Observe.nobody
               (snd first))) =
    translate_request (Some "t0k3n") "en" "de" "world" :: sent (snd first).
Proof.
  intros first.
  assert (H : first = (Return [(JStr "bonjour", 100, name, "hello")], snd first))
    by (vm_compute; reflexivity).
  split; [now rewrite H|].
  destruct (second_download_reuses_token "id" "secret" ticking granting
              "en" "fr" "hello" "en" "de" "world" (Observe.unit_of "en") Observe.nobody
              unset (snd first) _ H) as (e & He & Hreuse & _).
  assert (e = 540000000) by (vm_compute in He; congruence). subst e.
  apply Hreuse; vm_compute; reflexivity.
Defined.

End RestRuns.

(** ** Runs of the terminology service against the sample data *)

Section TerminologyRuns.
Import MicrosoftTerminologyService Observe Samples.

Local Abbreviation same := (fun code : string => code).

Lemma translate_unsupported_pair_witness :
  first_pair_supported same en_fr (unit_of "en") "xx" = false /\
  exists w', translate sample_langs same en_fr bonjour "xx" "hello" (unit_of "en") nobody []
               = (Return [], w') /\
             downloads w' = [] /\ reports w' = [].
Proof.
  assert (H : first_pair_supported same en_fr (unit_of "en") "xx" = false)
    by (vm_compute; reflexivity).
  split; [exact H|].
  refine (translate_unsupported_pair sample_langs same en_fr bonjour "xx" "hello"
            (unit_of "en") nobody [] H _).
  right. vm_compute. reflexivity.
Defined.

Lemma translate_supported_pair_as_is_witness :
  first_pair_supported same en_fr (unit_of "en") "fr" = true /\
  exists pre,
    snd (translate sample_langs same en_fr bonjour "fr" "hello" (unit_of "en") nobody []) =
      (pre ++ [DownloadTranslations "en" "fr" "hello"; IsSupported "en" "fr";
               ConvertLanguage "en"; ConvertLanguage "fr"])%list /\
    (pre = [] \/ exists exc, pre = [ReportError exc failure_message]).
Proof.
  assert (H : first_pair_supported same en_fr (unit_of "en") "fr" = true)
    by (vm_compute; reflexivity).
  split; [exact H|].
  exact (translate_supported_pair_as_is sample_langs same en_fr bonjour "fr" "hello"
           (unit_of "en") nobody [] eq_refl H).
Defined.

Lemma translate_downloads_widened_pair_witness :
  first_pair_supported same en_us_fr_fr (unit_of "en") "fr" = false /\
  widen sample_langs "en" = "en-us" /\ widen sample_langs "fr" = "fr-fr" /\
  downloads (snd (translate sample_langs same en_us_fr_fr bonjour "fr" "hello"
                    (unit_of "en") nobody []))
    = [("en-us", "fr-fr", "hello")].
Proof.
  assert (H : first_pair_supported same en_us_fr_fr (unit_of "en") "fr" = false)
    by (vm_compute; reflexivity).
  split; [exact H|]. split; [reflexivity|]. split; [reflexivity|].
  refine (translate_downloads_widened_pair sample_langs same en_us_fr_fr bonjour
            "fr" "hello" (unit_of "en") nobody [] eq_refl H _ _).
  - intros E. vm_compute in E. discriminate.
  - vm_compute. reflexivity.
Defined.

Lemma translate_returns_the_tuples_witness :
  let run := translate sample_langs same en_fr two_tuples "fr" "hello" (unit_of "en")
               nobody [] in
  exists out,
    run = (Return out, snd run) /\ length out = 2%nat /\
    reports (snd run) = [] /\
    ((out = [] /\ downloads (snd run) = []) \/
     exists s l, downloads (snd run) = [(s, l, "hello")] /\
                 two_tuples s l "hello" = Return (map to_tuple out)).
Proof.
  intros run.
  exists [ {| text := "bonjour"; quality := 90; service := name; source := "hello" |};
           {| text := "salut"; quality := 70; service := name; source := "hello" |} ].
  assert (H : run = (Return
                [ {| text := "bonjour"; quality := 90; service := name; source := "hello" |};
                  {| text := "salut"; quality := 70; service := name; source := "hello" |} ],
                snd run)) by (vm_compute; reflexivity).
  split; [exact H|]. split; [reflexivity|].
  exact (translate_returns_the_tuples sample_langs same en_fr two_tuples "fr" "hello"
           (unit_of "en") nobody [] (snd run) _ H).
Defined.

Lemma translate_raises_only_wrapped_witness :
  let run := translate sample_langs same en_fr timed_out "fr" "hello" (unit_of "en")
               nobody [] in
  exists error s l exc,
    run = (Raise error, snd run) /\
    timed_out s l "hello" = Raise exc /\
    downloads (snd run) = [(s, l, "hello")] /\
    reports (snd run) = [(exc, failure_message)] /\
    error = MachineTranslationError (exc_class exc +:+ ": " +:+ exc_str exc).
Proof.
  intros run.
  assert (H : run = (Raise (MachineTranslationError "URLError: <urlopen error timed out>"),
                      snd run)) by (vm_compute; reflexivity).
  destruct (translate_raises_only_wrapped sample_langs same en_fr timed_out "fr" "hello"
              (unit_of "en") nobody [] (snd run) _ H)
    as (s & l & exc & A & B & C & D & _).
  exists (MachineTranslationError "URLError: <urlopen error timed out>"), s, l, exc.
  split; [exact H|]. split; [exact A|]. split; [exact B|]. split; [exact C|].
  apply D. unfold timed_out in A. inversion A. reflexivity.
Defined.

Lemma translate_wraps_ascii_failure_witness :
  let run := translate sample_langs same en_fr timed_out "fr" "hello" (unit_of "en")
               nobody [] in
  downloads (snd run) = [("en", "fr", "hello")] /\
  fst run = Raise (MachineTranslationError "URLError: <urlopen error timed out>") /\
  reports (snd run) =
    [(Exc "URLError" "<urlopen error timed out>", failure_message)].
Proof.
  intros run.
  assert (Hd : downloads (snd run) = [("en", "fr", "hello")]).
  { vm_compute. reflexivity. }
  split; [exact Hd|].
  destruct (translate_wraps_ascii_failure sample_langs same en_fr timed_out "fr" "hello"
              (unit_of "en") nobody [] (snd run) (fst run) "en" "fr" "hello"
              (Exc "URLError" "<urlopen error timed out>"))
    as (B & A).
  - apply surjective_pairing.
  - exact Hd.
  - reflexivity.
  - destruct A as (A & _); [reflexivity|]. split; [exact A|exact B].
Defined.

End TerminologyRuns.

(** ** Runs of the SOAP requests against the sample service *)

Section SoapRuns.
Import Soap Samples.

Local Abbreviation soap_req_sample :=
  (soap_req string named_template named_render nil_uuid).
Local Abbreviation get_languages :=
  (<["soap_action" := "GetLanguages"]> (∅ : gmap string string)).

Lemma soap_req_unknown_action_witness :
  soap_req_sample answering "http://example.net" false false
    (<["soap_action" := "GetTerms"]> ∅) fresh =
  (Raise (Exc "AttributeError"
            "'MachineTranslationError' object has no attribute 'format'"), fresh).
Proof.
  apply soap_req_unknown_action; intros E; vm_compute in E; discriminate.
Defined.

Lemma empty_field_no_request_witness :
  download_translations string named_template named_render nil_uuid answering
    parse_translations int_100 "en" "fr" EmptyString (Observe.unit_of "en")
    Observe.nobody fresh =
  (Raise (MachineTranslationError unbound_template), fresh).
Proof.
  apply empty_field_no_request. right. right. reflexivity.
Defined.

Lemma soap_req_sends_to_service_witness :
  let run := soap_req_sample answering "http://example.net" true false get_languages
               fresh in
  exists req,
    sent (snd run) = [req] /\
    Soap.url req = MS_TM_API_URL /\ timeout_ms req = None /\
    headers req !! "SOAPAction" =
      Some (dquote +:+ "http://api.terminology.microsoft.com/terminology/Terminology/GetLanguages"
            +:+ dquote) /\
    data req = LANGS_TEMPLATE.
Proof.
  intros run.
  destruct (soap_req_sends_to_service string named_template named_render nil_uuid
              answering "http://example.net" true false get_languages fresh (snd run)
              (fst run)) as [[Hs _]|(req & Hs & Hu & Ht & Hh & _)].
  - apply surjective_pairing.
  - vm_compute in Hs. discriminate.
  - exists req. repeat split; try assumption.
    assert (Hd : sent (snd run) = req :: sent fresh) by exact Hs.
    vm_compute in Hd. inversion Hd. reflexivity.
Defined.

Lemma soap_status_req_checks_status_witness :
  let run := soap_req_sample failing "http://example.net" false false get_languages
               fresh in
  exists handle,
    run = (Return handle, snd run) /\ code handle = 500 /\
    soap_status_req string named_template named_render nil_uuid failing
      "http://example.net" false false get_languages fresh =
    (Raise (Exc "MachineTranslationError" "Internal Server Error"), snd run).
Proof.
  intros run.
  exists {| code := 500; msg := "Internal Server Error"; body := EmptyString |}.
  assert (H : run = (Return {| code := 500; msg := "Internal Server Error";
                               body := EmptyString |}, snd run))
    by (vm_compute; reflexivity).
  split; [exact H|]. split; [reflexivity|].
  pose proof (soap_status_req_checks_status string named_template named_render nil_uuid
                failing "http://example.net" false false get_languages fresh (snd run))
    as Hcheck.
  destruct (Hcheck _ H) as (_ & Hne & _).
  apply Hne. simpl. discriminate.
Defined.

Lemma download_languages_reads_codes_witness :
  exists w1,
    download_languages string named_template named_render nil_uuid answering
      parse_languages fresh = (Return [Some "en-us"; Some "fr-fr"], w1) /\
    length (sent w1) = 1%nat.
Proof.
  set (run := soap_status_req string named_template named_render nil_uuid answering
                MS_TM_API_URL false false get_languages fresh).
  assert (H : run = (Return {| code := 200; msg := "OK"; body := "<s:Envelope/>" |},
                     snd run)) by (vm_compute; reflexivity).
  pose proof (download_languages_reads_codes string named_template named_render nil_uuid
                answering parse_languages fresh (snd run) _ languages_tree H eq_refl)
    as Hread.
  change (find (qualified "GetLanguagesResult") languages_tree)
    with (Some languages_result) in Hread.
  destruct Hread as [Hall _].
  exists (snd run). split; [|vm_compute; reflexivity].
  rewrite Hall; [reflexivity|].
  repeat constructor; eexists; reflexivity.
Defined.

Lemma download_translations_tuples_witness :
  let run := download_translations string named_template named_render nil_uuid answering
               parse_translations int_100 "en" "fr" "hello" (Observe.unit_of "en")
               Observe.nobody fresh in
  fst run = Return [(Some "bonjour", 100, "Microsoft Terminology", Some "hello")] /\
  exists resp root,
    soap_status_req string named_template named_render nil_uuid answering
      MS_TM_API_URL false false
      (<["soap_action" := "GetTranslations"]>
       (<["source" := "en"]> (<["language" := "fr"]> (<["text" := "hello"]> ∅)))) fresh
      = (Return resp, snd run) /\
    code resp = 200 /\ parse_translations (body resp) = Return root /\
    length [(Some "bonjour", 100, "Microsoft Terminology", Some "hello")] =
      match find (qualified "GetTranslationsResult") root with
      | Some results => length (children_of results)
      | None => O
      end.
Proof.
  intros run.
  assert (H : run = (Return [(Some "bonjour", 100, "Microsoft Terminology", Some "hello")],
                     snd run)) by (vm_compute; reflexivity).
  split; [now rewrite H|].
  destruct (download_translations_tuples string named_template named_render nil_uuid
              answering parse_translations int_100 "en" "fr" "hello"
              (Observe.unit_of "en") Observe.nobody fresh (snd run) _ H) as [_ Hshape].
  exact Hshape.
Defined.

End SoapRuns.

Lemma cognitive_installs_answer_witness :
  Wire.due Wire.ticking MicrosoftTranslation.unset /\
  exists w1 k,
    MicrosoftCognitiveTranslation.access_token "k3y" Wire.ticking Samples.exchanging
      MicrosoftTranslation.unset = (Return (Some "raw-t0k3n"), w1) /\
    MicrosoftTranslation._access_token w1 = Some "raw-t0k3n" /\
    MicrosoftTranslation.sent w1 = [MicrosoftCognitiveTranslation.token_request "k3y"] /\
    MicrosoftTranslation.clock_reads w1 = S k /\
    MicrosoftTranslation._token_expiry w1 =
      Some (Wire.ticking k + MicrosoftTranslation.TOKEN_EXPIRY).
Proof.
  assert (Hdue : Wire.due Wire.ticking MicrosoftTranslation.unset) by (left; reflexivity).
  split; [exact Hdue|].
  exact (cognitive_installs_answer "k3y" Wire.ticking Samples.exchanging
           MicrosoftTranslation.unset Hdue).
Defined.
